(** * terraform-provider-pomeriumzero: the resource handlers, embedded

    A shallow embedding of [internal/provider]: the route, policy and
    cluster-settings resources, the two data sources and the provider
    session.  Go values are
    modelled as the code has them:

    - a Go [string] is a [string], an [int] a [Z], a [float64] the [Z] of its
      IEEE-754 bit pattern (the code only moves such values around);
    - [(T, error)] results are pairs whose second component is [None] for a
      [nil] error and [Some msg] for an error whose [Error()] text is [msg];
    - pointers and maps that may be [nil] are [option]s;
    - a panic is the [Panics] outcome of a computation;
    - [client.Do] is the one effect: it appends the request to the log of
      requests sent and asks the environment for the answer.

    What the Go standard library and the plugin framework compute
    (URL parsing, the transport, [encoding/json], list conversions) is not code
    of this repository; it is taken as the parameter [Env].  The one rule of
    the framework that decides what a resource method does, the agreement of
    a struct's [tfsdk] tags with the attributes of the schema, is written out
    over the tags and the schema of the source. *)

From Stdlib Require Import ZArith String Ascii DecimalString.
From stdpp Require Import base gmap strings list.

Local Open Scope string_scope.

(** ** Go basics *)

Definition float64 := Z.

(** A Go [error]: [None] is [nil], [Some msg] an error with that text. *)
Definition error := option string.

(** [fmt.Errorf] once its format has been rendered. *)
Definition Errorf (msg : string) : error := Some msg.

(** [%d] of an [int]. *)
Definition itoa (n : Z) : string := NilZero.string_of_int (Z.to_int n).

(** [strings.Contains]. *)
Fixpoint Contains (s substr : string) : bool :=
  if String.prefix substr s then true
  else match s with
       | EmptyString => false
       | String _ s' => Contains s' substr
       end.

(** [interface{}] values as [encoding/json] produces them and as the request
    maps hold them.  [AnyStrings] is a [[]string] ([None] is the nil slice). *)
#[warnings="-register-all"] Inductive any : Type :=
  | AnyNil
  | AnyString (s : string)
  | AnyBool (b : bool)
  | AnyFloat64 (f : float64)
  | AnyStrings (l : option (list string))
  | AnySlice (l : list any)
  | AnyMap (kv : list (string * any)).

(** A [map[string]interface{}]; [None] is the nil map. *)
Abbreviation gomap := (option (gmap string any)).

(** [m[k]]: indexing a missing key, or a nil map, yields the nil interface. *)
Definition index (m : gomap) (k : string) : any :=
  match m with
  | None => AnyNil
  | Some g => default AnyNil (g !! k)
  end.

(** Outcome of a computation that may panic. *)
Inductive outcome (A : Type) : Type :=
  | Returns (a : A)
  | Panics (msg : string).
Arguments Returns {A} a.
Arguments Panics {A} msg.

(** ** The plugin framework's attribute values *)

Module types.

Inductive String : Type := StringNull | StringUnknown | StringValue (s : string).
Inductive Bool : Type := BoolNull | BoolUnknown | BoolValue (b : bool).
Inductive Float64 : Type := Float64Null | Float64Unknown | Float64Value (f : float64).
Inductive List : Type := ListNull | ListUnknown | ListValue (elems : list String).

Definition IsNull (v : String) : bool :=
  match v with StringNull => true | _ => false end.
Definition ValueString (v : String) : string :=
  match v with StringValue s => s | _ => "" end.

Definition BoolIsNull (v : Bool) : bool :=
  match v with BoolNull => true | _ => false end.
Definition ValueBool (v : Bool) : bool :=
  match v with BoolValue b => b | _ => false end.

Definition ValueFloat64 (v : Float64) : float64 :=
  match v with Float64Value f => f | _ => 0%Z end.

Definition ListIsNull (v : List) : bool :=
  match v with ListNull => true | _ => false end.

End types.

(** A diagnostic of severity error: summary and detail. *)
Definition Diagnostic := (string * string)%type.

(** The response of a Read, Update or ImportState call: the state to store
    ([None] once [RemoveResource] was called) and the diagnostics. *)
Record StateResponse (M : Type) : Type := mkStateResponse {
  State : option M;
  Diagnostics : list Diagnostic
}.
Arguments mkStateResponse {M} _ _.
Arguments State {M} _.
Arguments Diagnostics {M} _.

(** ** The plugin framework: objects and structs

    [req.State.Get], [req.Plan.Get], [req.Config.Get] and [resp.State.Set]
    convert between an object of the resource's schema and a Go struct, field
    by [tfsdk] tag.  The framework converts only when the tags of the struct
    and the attribute names of the schema are the same set; otherwise it
    converts nothing and reports one diagnostic with the summary
    [Value Conversion Error], whose detail names the fields on either side
    (the wording of the detail is abbreviated here). *)

(** The names of [names] that are not among [among]. *)
Definition not_among (names among : list string) : list string :=
  filter (fun name => name ∉ among) names.

Definition struct_mismatch (tags attributes : list string) : option Diagnostic :=
  match not_among tags attributes, not_among attributes tags with
  | [], [] => None
  | in_struct, in_object =>
      Some ("Value Conversion Error",
            "mismatch between struct and object:"
            +:+ match in_struct with
                | [] => EmptyString
                | _ => " Struct defines fields not found in object: "
                       +:+ String.concat ", " in_struct +:+ "."
                end
            +:+ match in_object with
                | [] => EmptyString
                | _ => " Object defines fields not found in struct: "
                       +:+ String.concat ", " in_object +:+ "."
                end)
  end.

(** ** HTTP *)

Record Request : Type := mkRequest {
  Method : string;
  URL : string;
  Header : list (string * string);
  Body : option string
}.

(** A response body is a stream: the bytes that arrive, and the error that
    ends the stream early, if any. *)
Record ReadCloser : Type := mkBody {
  content : string;
  read_error : option string
}.

Record Response : Type := mkResponse {
  StatusCode : Z;
  RespBody : ReadCloser
}.

Definition StatusOK : Z := 200.
Definition StatusCreated : Z := 201.
Definition StatusNoContent : Z := 204.
Definition StatusNotFound : Z := 404.

(** [io.ReadAll]: the bytes read and the error, if any. *)
Definition ReadAll (b : ReadCloser) : string * error := (content b, read_error b).

Definition apiBaseURL : string := "https://console.pomerium.app/api/v0".
Definition tokenEndpoint : string := apiBaseURL +:+ "/token".
Definition organizationsEndpoint : string := apiBaseURL +:+ "/organizations".

(** ** API data structures *)

Record Policy : Type := mkPolicy {
  Policy_ID : string;
  Policy_Name : string;
  Policy_Description : string;
  Policy_Enforced : bool;
  Policy_Explanation : string;
  Policy_NamespaceID : string;
  Policy_PPL : string;
  Policy_Remediation : string;
  Policy_Routes : list (string * string)
}.

Record CreatePolicyRequest : Type := mkCreatePolicyRequest {
  cpr_Name : string;
  cpr_Description : string;
  cpr_Enforced : bool;
  cpr_Explanation : string;
  cpr_NamespaceID : string;
  cpr_PPL : any;
  cpr_Remediation : string
}.

Record UpdatePolicyRequest : Type := mkUpdatePolicyRequest {
  upr_NamespaceID : string;
  upr_Name : string;
  upr_Enforced : bool;
  upr_PPL : any;
  upr_Description : string;
  upr_Explanation : string;
  upr_Remediation : string
}.

Record ClusterSettings : Type := mkClusterSettings {
  cs_ID : string;
  cs_Address : string;
  cs_AuthenticateServiceUrl : string;
  cs_AutoApplyChangesets : bool;
  cs_CookieExpire : string;
  cs_CookieHttpOnly : bool;
  cs_CookieName : string;
  cs_DefaultUpstreamTimeout : string;
  cs_DNSLookupFamily : string;
  cs_IdentityProvider : string;
  cs_IdentityProviderClientId : string;
  cs_IdentityProviderClientSecret : option string;
  cs_IdentityProviderUrl : string;
  cs_LogLevel : string;
  cs_PassIdentityHeaders : bool;
  cs_ProxyLogLevel : string;
  cs_SkipXffAppend : bool;
  cs_TimeoutIdle : string;
  cs_TimeoutRead : string;
  cs_TimeoutWrite : string;
  cs_TracingSampleRate : float64
}.

Record CreateClusterSettingsRequest : Type := mkCreateClusterSettingsRequest {
  ccs_ID : string;
  ccs_Address : string;
  ccs_AuthenticateServiceUrl : string;
  ccs_AutoApplyChangesets : bool;
  ccs_CookieExpire : string;
  ccs_CookieHttpOnly : bool;
  ccs_CookieName : string;
  ccs_DefaultUpstreamTimeout : string;
  ccs_DNSLookupFamily : string;
  ccs_IdentityProvider : string;
  ccs_IdentityProviderClientId : string;
  ccs_IdentityProviderClientSecret : string;
  ccs_IdentityProviderUrl : string;
  ccs_LogLevel : string;
  ccs_PassIdentityHeaders : bool;
  ccs_ProxyLogLevel : string;
  ccs_SkipXffAppend : bool;
  ccs_TimeoutIdle : string;
  ccs_TimeoutRead : string;
  ccs_TimeoutWrite : string;
  ccs_TracingSampleRate : float64;
  ccs_CodecType : string
}.

Record UpdateClusterSettingsRequest : Type := mkUpdateClusterSettingsRequest {
  ucs_Address : string;
  ucs_AuthenticateServiceUrl : string;
  ucs_AutoApplyChangesets : bool;
  ucs_CookieExpire : string;
  ucs_CookieHttpOnly : bool;
  ucs_CookieName : string;
  ucs_DefaultUpstreamTimeout : string;
  ucs_DNSLookupFamily : string;
  ucs_IdentityProvider : string;
  ucs_IdentityProviderClientId : string;
  ucs_IdentityProviderClientSecret : option string;
  ucs_IdentityProviderUrl : string;
  ucs_LogLevel : string;
  ucs_PassIdentityHeaders : bool;
  ucs_ProxyLogLevel : string;
  ucs_SkipXffAppend : bool;
  ucs_TimeoutIdle : string;
  ucs_TimeoutRead : string;
  ucs_TimeoutWrite : string;
  ucs_TracingSampleRate : float64;
  ucs_CodecType : string
}.

(** The element of the list the organizations endpoint returns. *)
Record Organization : Type := mkOrganization { org_ID : string }.

(** ** The environment

    Everything the handlers call that is not code of this repository.  A
    function returning [string + T] yields [inl msg] for an error with text
    [msg] and [inr v] for the value. *)
Record Env : Type := mkEnv {
  (** [net/url]: why [http.NewRequestWithContext] rejects the URL, if it does. *)
  url_Parse : string -> option string;
  (** [client.Do], given the requests already sent. *)
  client_Do : list Request -> Request -> string + Response;
  (** [json.Marshal] of the request documents. *)
  Marshal_map : gmap string any -> string + string;
  Marshal_CreatePolicyRequest : CreatePolicyRequest -> string + string;
  Marshal_UpdatePolicyRequest : UpdatePolicyRequest -> string + string;
  Marshal_CreateClusterSettingsRequest : CreateClusterSettingsRequest -> string + string;
  Marshal_UpdateClusterSettingsRequest : UpdateClusterSettingsRequest -> string + string;
  (** [json.Unmarshal] of a whole body. *)
  Unmarshal_map : string -> string + gomap;
  Unmarshal_Policy : string -> string + Policy;
  Unmarshal_any : string -> string + any;
  (** [json.NewDecoder(body).Decode]. *)
  Decode_map : ReadCloser -> string + gomap;
  Decode_Policy : ReadCloser -> string + Policy;
  Decode_ClusterSettings : ReadCloser -> string + ClusterSettings;
  Decode_Organizations : ReadCloser -> string + list Organization;
  (** [types.ListValueFrom(ctx, types.StringType, _)] and [List.ElementsAs]. *)
  ListValueFrom : list any -> types.List;
  ElementsAs : types.List -> option (list string)
}.

(** ** Computations that send requests *)

Definition IO (A : Type) : Type := list Request -> outcome A * list Request.

#[global] Instance IO_ret : MRet IO := fun A a log => (Returns a, log).
#[global] Instance IO_bind : MBind IO := fun A B f m log =>
  match m log with
  | (Returns a, log') => f a log'
  | (Panics msg, log') => (Panics msg, log')
  end.

(** Lifting a pure computation that may panic. *)
Definition lift {A} (o : outcome A) : IO A := fun log => (o, log).

(** [http.NewRequestWithContext(ctx, method, url, body)]. *)
Definition NewRequestWithContext (E : Env) (method url : string) (body : option string)
  : Request * error :=
  match url_Parse E url with
  | Some err => (mkRequest "" "" [] None, Some err)
  | None => (mkRequest method url [] body, None)
  end.

(** [req.Header.Set(key, value)]. *)
Definition Header_Set (req : Request) (key value : string) : Request :=
  mkRequest (Method req) (URL req)
            (filter (fun kv => kv.1 ≠ key) (Header req) ++ [(key, value)])%list (Body req).

(** [client.Do(req)]: the request goes out, the environment answers. *)
Definition Do (E : Env) (req : Request) : IO (string + Response) :=
  fun log => (Returns (client_Do E log req), (log ++ [req])%list).

(** ** Routes (route_resource.go) *)

Record RouteResource : Type := mkRouteResource {
  route_token : string;
  route_organizationID : string
}.

Record RouteResourceModel : Type := mkRouteResourceModel {
  ID : types.String;
  Name : types.String;
  NamespaceID : types.String;
  From : types.String;
  To : types.List;
  AllowSpdy : types.Bool;
  AllowWebsockets : types.Bool;
  EnableGoogleCloudServerlessAuthentication : types.Bool;
  PassIdentityHeaders : types.Bool;
  PreserveHostHeader : types.Bool;
  ShowErrorDetails : types.Bool;
  TLSSkipVerify : types.Bool;
  TLSUpstreamAllowRenegotiation : types.Bool;
  PolicyIDs : types.List;
  Prefix : types.String;
  PrefixRewrite : types.String;
  KubernetesServiceAccountToken : types.String
}.

(** [RouteResourceModel{}]: every attribute is null. *)
Definition RouteResourceModel_zero : RouteResourceModel :=
  mkRouteResourceModel
    types.StringNull types.StringNull types.StringNull types.StringNull types.ListNull
    types.BoolNull types.BoolNull types.BoolNull types.BoolNull types.BoolNull
    types.BoolNull types.BoolNull types.BoolNull
    types.ListNull types.StringNull types.StringNull types.StringNull.

(** One step of [createRouteRequest]: [if cond { req[key] = value }]. *)
Definition set_if (cond : bool) (key : string) (value : any) (req : gmap string any)
  : gmap string any :=
  if cond then <[key := value]> req else req.

Definition createRouteRequest (E : Env) (model : RouteResourceModel) : gmap string any :=
  let req : gmap string any :=
    <["kubernetesServiceAccountToken" :=
        AnyString (types.ValueString (KubernetesServiceAccountToken model))]>
    (<["tlsUpstreamAllowRenegotiation" :=
        AnyBool (types.ValueBool (TLSUpstreamAllowRenegotiation model))]>
    (<["tlsSkipVerify" := AnyBool (types.ValueBool (TLSSkipVerify model))]>
    (<["showErrorDetails" := AnyBool (types.ValueBool (ShowErrorDetails model))]>
    (<["enableGoogleCloudServerlessAuthentication" :=
        AnyBool (types.ValueBool (EnableGoogleCloudServerlessAuthentication model))]>
    (<["allowSpdy" := AnyBool (types.ValueBool (AllowSpdy model))]>
    (<["from" := AnyString (types.ValueString (From model))]>
    (<["namespaceId" := AnyString (types.ValueString (NamespaceID model))]>
    (<["name" := AnyString (types.ValueString (Name model))]> ∅)))))))) in
  let req := set_if (negb (types.ListIsNull (To model)))
               "to" (AnyStrings (ElementsAs E (To model))) req in
  let req := set_if (negb (types.BoolIsNull (AllowWebsockets model)))
               "allowWebsockets" (AnyBool (types.ValueBool (AllowWebsockets model))) req in
  let req := set_if (negb (types.BoolIsNull (PassIdentityHeaders model)))
               "passIdentityHeaders" (AnyBool (types.ValueBool (PassIdentityHeaders model))) req in
  let req := set_if (negb (types.BoolIsNull (PreserveHostHeader model)))
               "preserveHostHeader" (AnyBool (types.ValueBool (PreserveHostHeader model))) req in
  let req := set_if (negb (types.ListIsNull (PolicyIDs model)))
               "policyIds" (AnyStrings (ElementsAs E (PolicyIDs model))) req in
  let req := set_if (negb (types.IsNull (Prefix model)))
               "prefix" (AnyString (types.ValueString (Prefix model))) req in
  let req := set_if (negb (types.IsNull (PrefixRewrite model)))
               "prefixRewrite" (AnyString (types.ValueString (PrefixRewrite model))) req in
  let req := set_if (negb (types.IsNull (KubernetesServiceAccountToken model)))
               "kubernetesServiceAccountToken"
               (AnyString (types.ValueString (KubernetesServiceAccountToken model))) req in
  req.

Definition updateRouteRequest (E : Env) (model : RouteResourceModel) : gmap string any :=
  createRouteRequest E model.

(** The name of the dynamic type of an [interface{}] value, as a panic prints it. *)
Definition type_name (v : any) : string :=
  match v with
  | AnyNil => "nil"
  | AnyString _ => "string"
  | AnyBool _ => "bool"
  | AnyFloat64 _ => "float64"
  | AnyStrings _ => "[]string"
  | AnySlice _ => "[]interface {}"
  | AnyMap _ => "map[string]interface {}"
  end.

(** [v.(string)]: the unchecked type assertion panics unless [v] holds a string. *)
Definition assert_string (v : any) : outcome string :=
  match v with
  | AnyString s => Returns s
  | _ => Panics ("interface conversion: interface {} is " +:+ type_name v +:+ ", not string")
  end.

(** The [toBool] closure of [mapRouteResponseToModel]. *)
Definition toBool (v : any) : types.Bool :=
  match v with
  | AnyNil => types.BoolNull
  | AnyBool b => types.BoolValue b
  | _ => types.BoolNull
  end.

(** [if l, ok := v.([]interface{}); ok { field = ListValueFrom(l) }]. *)
Definition list_field (E : Env) (v : any) (old : types.List) : types.List :=
  match v with
  | AnySlice l => ListValueFrom E l
  | _ => old
  end.

(** [if s, ok := v.(string); ok { field = types.StringValue(s) }]. *)
Definition string_field (v : any) (old : types.String) : types.String :=
  match v with
  | AnyString s => types.StringValue s
  | _ => old
  end.

Definition mapRouteResponseToModel (E : Env) (apiResponse : gomap)
  : outcome RouteResourceModel :=
  match assert_string (index apiResponse "id") with
  | Panics msg => Panics msg
  | Returns id =>
  match assert_string (index apiResponse "name") with
  | Panics msg => Panics msg
  | Returns name =>
  match assert_string (index apiResponse "namespaceId") with
  | Panics msg => Panics msg
  | Returns namespaceId =>
  match assert_string (index apiResponse "from") with
  | Panics msg => Panics msg
  | Returns from =>
      Returns
        {| ID := types.StringValue id;
           Name := types.StringValue name;
           NamespaceID := types.StringValue namespaceId;
           From := types.StringValue from;
           To := list_field E (index apiResponse "to") types.ListNull;
           AllowSpdy := toBool (index apiResponse "allowSpdy");
           AllowWebsockets := toBool (index apiResponse "allowWebsockets");
           EnableGoogleCloudServerlessAuthentication :=
             toBool (index apiResponse "enableGoogleCloudServerlessAuthentication");
           PassIdentityHeaders := toBool (index apiResponse "passIdentityHeaders");
           PreserveHostHeader := toBool (index apiResponse "preserveHostHeader");
           ShowErrorDetails := toBool (index apiResponse "showErrorDetails");
           TLSSkipVerify := toBool (index apiResponse "tlsSkipVerify");
           TLSUpstreamAllowRenegotiation :=
             toBool (index apiResponse "tlsUpstreamAllowRenegotiation");
           PolicyIDs := list_field E (index apiResponse "policyIds") types.ListNull;
           Prefix := string_field (index apiResponse "prefix") types.StringNull;
           PrefixRewrite := string_field (index apiResponse "prefixRewrite") types.StringNull;
           KubernetesServiceAccountToken :=
             string_field (index apiResponse "kubernetesServiceAccountToken") types.StringNull |}
  end end end end.

Definition routes_url (organizationID : string) : string :=
  apiBaseURL +:+ "/organizations/" +:+ organizationID +:+ "/routes".

Definition route_url (organizationID id : string) : string :=
  apiBaseURL +:+ "/organizations/" +:+ organizationID +:+ "/routes/" +:+ id.

Definition createRoute (E : Env) (r : RouteResource) (plan : RouteResourceModel)
  : IO (RouteResourceModel * error) :=
  let url := routes_url (route_organizationID r) in
  let routeReq := createRouteRequest E plan in
  match Marshal_map E routeReq with
  | inl err => mret (RouteResourceModel_zero, Errorf ("error marshaling route: " +:+ err))
  | inr body =>
    match NewRequestWithContext E "POST" url (Some body) with
    | (_, Some err) =>
        mret (RouteResourceModel_zero, Errorf ("error creating request: " +:+ err))
    | (req, None) =>
      let req := Header_Set req "Authorization" ("Bearer " +:+ route_token r) in
      let req := Header_Set req "Content-Type" "application/json" in
      res ← Do E req;
      match res with
      | inl err => mret (RouteResourceModel_zero, Errorf ("error making request: " +:+ err))
      | inr resp =>
        match ReadAll (RespBody resp) with
        | (_, Some err) =>
            mret (RouteResourceModel_zero, Errorf ("error reading response body: " +:+ err))
        | (responseBody, None) =>
          if negb (StatusCode resp =? StatusCreated)%Z then
            mret (RouteResourceModel_zero,
                  Errorf ("unexpected status code: " +:+ itoa (StatusCode resp)
                          +:+ ". Response body: " +:+ responseBody))
          else
            match Unmarshal_map E responseBody with
            | inl err =>
                mret (RouteResourceModel_zero,
                      Errorf ("error unmarshaling response: " +:+ err))
            | inr apiResponse =>
                model ← lift (mapRouteResponseToModel E apiResponse);
                mret (model, None)
            end
        end
      end
    end
  end.

Definition readRoute (E : Env) (r : RouteResource) (id : string) : IO (gomap * error) :=
  let url := route_url (route_organizationID r) id in
  match NewRequestWithContext E "GET" url None with
  | (_, Some err) => mret (None, Errorf ("error creating request: " +:+ err))
  | (req, None) =>
    let req := Header_Set req "Authorization" ("Bearer " +:+ route_token r) in
    res ← Do E req;
    match res with
    | inl err => mret (None, Errorf ("error making request: " +:+ err))
    | inr resp =>
      if negb (StatusCode resp =? StatusOK)%Z then
        mret (None, Errorf ("unexpected status code: " +:+ itoa (StatusCode resp)))
      else
        match Decode_map E (RespBody resp) with
        | inl err => mret (None, Errorf ("error decoding response: " +:+ err))
        | inr route => mret (route, None)
        end
    end
  end.

Definition updateRoute (E : Env) (r : RouteResource) (plan : RouteResourceModel)
  : IO (RouteResourceModel * error) :=
  let url := route_url (route_organizationID r) (types.ValueString (ID plan)) in
  let routeReq := updateRouteRequest E plan in
  match Marshal_map E routeReq with
  | inl err => mret (RouteResourceModel_zero, Errorf ("error marshaling route: " +:+ err))
  | inr body =>
    match NewRequestWithContext E "PUT" url (Some body) with
    | (_, Some err) =>
        mret (RouteResourceModel_zero, Errorf ("error creating request: " +:+ err))
    | (req, None) =>
      let req := Header_Set req "Authorization" ("Bearer " +:+ route_token r) in
      let req := Header_Set req "Content-Type" "application/json" in
      res ← Do E req;
      match res with
      | inl err => mret (RouteResourceModel_zero, Errorf ("error making request: " +:+ err))
      | inr resp =>
        match ReadAll (RespBody resp) with
        | (_, Some err) =>
            mret (RouteResourceModel_zero, Errorf ("error reading response body: " +:+ err))
        | (responseBody, None) =>
          if negb (StatusCode resp =? StatusOK)%Z then
            mret (RouteResourceModel_zero,
                  Errorf ("unexpected status code: " +:+ itoa (StatusCode resp)
                          +:+ ". Response body: " +:+ responseBody))
          else
            match Unmarshal_map E responseBody with
            | inl err =>
                mret (RouteResourceModel_zero,
                      Errorf ("error unmarshaling response: " +:+ err))
            | inr apiResponse =>
                model ← lift (mapRouteResponseToModel E apiResponse);
                mret (model, None)
            end
        end
      end
    end
  end.

Definition deleteRoute (E : Env) (r : RouteResource) (id : string) : IO error :=
  let url := route_url (route_organizationID r) id in
  match NewRequestWithContext E "DELETE" url None with
  | (_, Some err) => mret (Errorf ("error creating request: " +:+ err))
  | (req, None) =>
    let req := Header_Set req "Authorization" ("Bearer " +:+ route_token r) in
    res ← Do E req;
    match res with
    | inl err => mret (Errorf ("error making request: " +:+ err))
    | inr resp =>
      if negb (StatusCode resp =? StatusNoContent)%Z then
        mret (Errorf ("unexpected status code: " +:+ itoa (StatusCode resp)))
      else mret None
    end
  end.

(** [resp.State.Set(ctx, model)] on a model built by
    [mapRouteResponseToModel]: the diagnostic, if the framework refuses the
    model.  A list attribute that [mapRouteResponseToModel] left unassigned
    is the zero value [types.List{}]: it is null, and it has no element type,
    so it is not a value of the schema's list of strings and [Set] stores
    nothing.  (In such a model a null list is always this zero value: for a
    slice [types.ListValueFrom] yields a list, or the unknown list when an
    element does not convert.  The wording of the detail is abbreviated.) *)
Definition RouteResource_State_Set (model : RouteResourceModel) : option Diagnostic :=
  if types.ListIsNull (To model) || types.ListIsNull (PolicyIDs model)
  then Some ("Value Conversion Error", "a list attribute has no element type")
  else None.

(** [RouteResource.Read]; [state] is the prior state, which the response
    keeps unless the handler sets a new one. *)
Definition RouteResource_Read (E : Env) (r : RouteResource) (state : RouteResourceModel)
  : IO (StateResponse RouteResourceModel) :=
  '(route, err) ← readRoute E r (types.ValueString (ID state));
  match err with
  | Some e =>
      mret (mkStateResponse (Some state)
              [("Error Reading Route",
                "Could not read route ID " +:+ types.ValueString (ID state) +:+ ": " +:+ e)])
  | None =>
      newState ← lift (mapRouteResponseToModel E route);
      match RouteResource_State_Set newState with  (* resp.State.Set *)
      | Some d => mret (mkStateResponse (Some state) [d])
      | None => mret (mkStateResponse (Some newState) [])
      end
  end.

(** ** Policies (policy_resource.go) *)

Record PolicyResource : Type := mkPolicyResource {
  policy_token : string;
  policy_organizationID : string
}.

Record PolicyResourceModel : Type := mkPolicyResourceModel {
  pm_ID : types.String;
  pm_Name : types.String;
  pm_Description : types.String;
  pm_Enforced : types.Bool;
  pm_Explanation : types.String;
  pm_NamespaceID : types.String;
  pm_PPL : types.String;
  pm_Remediation : types.String
}.

(** [var state PolicyResourceModel]: every attribute is null. *)
Definition PolicyResourceModel_zero : PolicyResourceModel :=
  mkPolicyResourceModel types.StringNull types.StringNull types.StringNull types.BoolNull
    types.StringNull types.StringNull types.StringNull types.StringNull.

Definition stringOrEmpty (s : string) : string :=
  if String.eqb s "null" then "" else s.

Definition updatePolicyResourceModel (model : PolicyResourceModel) (policy : Policy)
  : PolicyResourceModel :=
  {| pm_ID := types.StringValue (Policy_ID policy);
     pm_Name := types.StringValue (stringOrEmpty (Policy_Name policy));
     pm_Description := types.StringValue (stringOrEmpty (Policy_Description policy));
     pm_Enforced := types.BoolValue (Policy_Enforced policy);
     pm_Explanation := types.StringValue (stringOrEmpty (Policy_Explanation policy));
     pm_NamespaceID := types.StringValue (Policy_NamespaceID policy);
     pm_PPL := types.StringValue (Policy_PPL policy);
     pm_Remediation := types.StringValue (stringOrEmpty (Policy_Remediation policy)) |}.

(** [var ppl interface{}; json.Unmarshal([]byte(s), &ppl)], the error only logged. *)
Definition unmarshal_ppl (E : Env) (s : string) : any :=
  match Unmarshal_any E s with
  | inl _ => AnyNil
  | inr v => v
  end.

Definition createPolicyRequest (E : Env) (model : PolicyResourceModel) : CreatePolicyRequest :=
  {| cpr_Name := types.ValueString (pm_Name model);
     cpr_Description := types.ValueString (pm_Description model);
     cpr_Enforced := types.ValueBool (pm_Enforced model);
     cpr_Explanation := types.ValueString (pm_Explanation model);
     cpr_NamespaceID := types.ValueString (pm_NamespaceID model);
     cpr_PPL := unmarshal_ppl E (types.ValueString (pm_PPL model));
     cpr_Remediation := types.ValueString (pm_Remediation model) |}.

Definition updatePolicyRequest (E : Env) (model : PolicyResourceModel) : UpdatePolicyRequest :=
  {| upr_NamespaceID := types.ValueString (pm_NamespaceID model);
     upr_Name := types.ValueString (pm_Name model);
     upr_Enforced := types.ValueBool (pm_Enforced model);
     upr_PPL := unmarshal_ppl E (types.ValueString (pm_PPL model));
     upr_Description := types.ValueString (pm_Description model);
     upr_Explanation := types.ValueString (pm_Explanation model);
     upr_Remediation := types.ValueString (pm_Remediation model) |}.

Definition policies_url (organizationID : string) : string :=
  apiBaseURL +:+ "/organizations/" +:+ organizationID +:+ "/policies".

Definition policy_url (organizationID policyID : string) : string :=
  apiBaseURL +:+ "/organizations/" +:+ organizationID +:+ "/policies/" +:+ policyID.

Definition createPolicy (E : Env) (r : PolicyResource) (policy : CreatePolicyRequest)
  : IO (option Policy * error) :=
  let url := policies_url (policy_organizationID r) in
  match Marshal_CreatePolicyRequest E policy with
  | inl err => mret (None, Errorf ("error marshaling policy: " +:+ err))
  | inr body =>
    match NewRequestWithContext E "POST" url (Some body) with
    | (_, Some err) => mret (None, Errorf ("error creating request: " +:+ err))
    | (req, None) =>
      let req := Header_Set req "Authorization" ("Bearer " +:+ policy_token r) in
      let req := Header_Set req "Content-Type" "application/json" in
      res ← Do E req;
      match res with
      | inl err => mret (None, Errorf ("error making request: " +:+ err))
      | inr resp =>
        match ReadAll (RespBody resp) with
        | (_, Some err) => mret (None, Errorf ("error reading response body: " +:+ err))
        | (responseBody, None) =>
          if negb (StatusCode resp =? StatusCreated)%Z then
            mret (None,
                  Errorf ("unexpected status code: " +:+ itoa (StatusCode resp)
                          +:+ ". Response body: " +:+ responseBody))
          else
            match Unmarshal_Policy E responseBody with
            | inl err => mret (None, Errorf ("error unmarshaling response: " +:+ err))
            | inr createdPolicy => mret (Some createdPolicy, None)
            end
        end
      end
    end
  end.

Definition getPolicy (E : Env) (r : PolicyResource) (policyID : string)
  : IO (option Policy * error) :=
  let url := policy_url (policy_organizationID r) policyID in
  match NewRequestWithContext E "GET" url None with
  | (_, Some err) => mret (None, Errorf ("error creating request: " +:+ err))
  | (req, None) =>
    let req := Header_Set req "Authorization" ("Bearer " +:+ policy_token r) in
    let req := Header_Set req "Content-Type" "application/json" in
    res ← Do E req;
    match res with
    | inl err => mret (None, Errorf ("error making request: " +:+ err))
    | inr resp =>
      if negb (StatusCode resp =? StatusOK)%Z then
        mret (None, Errorf ("unexpected status code: " +:+ itoa (StatusCode resp)))
      else
        match Decode_Policy E (RespBody resp) with
        | inl err => mret (None, Errorf ("error decoding response: " +:+ err))
        | inr policy => mret (Some policy, None)
        end
    end
  end.

Definition updatePolicy (E : Env) (r : PolicyResource) (policyID : string)
    (policy : UpdatePolicyRequest) : IO (option Policy * error) :=
  let url := policy_url (policy_organizationID r) policyID in
  match Marshal_UpdatePolicyRequest E policy with
  | inl err => mret (None, Errorf ("error marshaling policy: " +:+ err))
  | inr body =>
    match NewRequestWithContext E "PUT" url (Some body) with
    | (_, Some err) => mret (None, Errorf ("error creating request: " +:+ err))
    | (req, None) =>
      let req := Header_Set req "Authorization" ("Bearer " +:+ policy_token r) in
      let req := Header_Set req "Content-Type" "application/json" in
      res ← Do E req;
      match res with
      | inl err => mret (None, Errorf ("error making request: " +:+ err))
      | inr resp =>
        match ReadAll (RespBody resp) with
        | (_, Some err) => mret (None, Errorf ("error reading response body: " +:+ err))
        | (responseBody, None) =>
          if (StatusCode resp =? StatusNotFound)%Z then
            mret (None,
                  Errorf ("policy with ID " +:+ policyID
                          +:+ " not found. It may have been deleted outside of Terraform"))
          else if negb (StatusCode resp =? StatusOK)%Z then
            mret (None,
                  Errorf ("unexpected status code: " +:+ itoa (StatusCode resp)
                          +:+ ". Response body: " +:+ responseBody))
          else
            match Unmarshal_Policy E responseBody with
            | inl err => mret (None, Errorf ("error unmarshaling response: " +:+ err))
            | inr updatedPolicy => mret (Some updatedPolicy, None)
            end
        end
      end
    end
  end.

Definition deletePolicy (E : Env) (r : PolicyResource) (policyID : string) : IO error :=
  let url := policy_url (policy_organizationID r) policyID in
  match NewRequestWithContext E "DELETE" url None with
  | (_, Some err) => mret (Some err)
  | (req, None) =>
    let req := Header_Set req "Authorization" ("Bearer " +:+ policy_token r) in
    res ← Do E req;
    match res with
    | inl err => mret (Some err)
    | inr resp =>
      if negb (StatusCode resp =? StatusNoContent)%Z then
        mret (Errorf ("unexpected status code: " +:+ itoa (StatusCode resp)))
      else mret None
    end
  end.

(** [PolicyResource.Read]. *)
Definition PolicyResource_Read (E : Env) (r : PolicyResource) (state : PolicyResourceModel)
  : IO (StateResponse PolicyResourceModel) :=
  '(policy, err) ← getPolicy E r (types.ValueString (pm_ID state));
  match err, policy with
  | Some e, _ =>
      if Contains e "policy not found" then mret (mkStateResponse None [])
      else mret (mkStateResponse (Some state) [("Error reading policy", e)])
  | None, Some policy =>
      let state := updatePolicyResourceModel state policy in
      let state :=
        {| pm_ID := types.StringValue (Policy_ID policy);
           pm_Name := pm_Name state;
           pm_Description := pm_Description state;
           pm_Enforced := pm_Enforced state;
           pm_Explanation := pm_Explanation state;
           pm_NamespaceID := pm_NamespaceID state;
           pm_PPL := pm_PPL state;
           pm_Remediation := pm_Remediation state |} in
      mret (mkStateResponse (Some state) [])
  | None, None => lift (Panics "invalid memory address or nil pointer dereference")
  end.

(** [PolicyResource.Update]. *)
Definition PolicyResource_Update (E : Env) (r : PolicyResource)
    (plan state : PolicyResourceModel) : IO (StateResponse PolicyResourceModel) :=
  let policyID := types.ValueString (pm_ID state) in
  let policyReq := updatePolicyRequest E plan in
  '(policy, err) ← updatePolicy E r policyID policyReq;
  match err, policy with
  | Some e, _ => mret (mkStateResponse (Some state) [("Error updating policy", e)])
  | None, Some policy =>
      mret (mkStateResponse (Some (updatePolicyResourceModel plan policy)) [])
  | None, None => lift (Panics "invalid memory address or nil pointer dereference")
  end.

(** ** Cluster settings (cluster_settings_resource.go) *)

Record ClusterSettingsResource : Type := mkClusterSettingsResource {
  settings_token : string;
  settings_organizationID : string
}.

Record ClusterSettingsResourceModel : Type := mkClusterSettingsResourceModel {
  m_ID : types.String;
  m_Address : types.String;
  m_AuthenticateServiceUrl : types.String;
  m_AutoApplyChangesets : types.Bool;
  m_CookieExpire : types.String;
  m_CookieHttpOnly : types.Bool;
  m_CookieName : types.String;
  m_DefaultUpstreamTimeout : types.String;
  m_DNSLookupFamily : types.String;
  m_IdentityProvider : types.String;
  m_IdentityProviderClientId : types.String;
  m_IdentityProviderClientSecret : types.String;
  m_IdentityProviderUrl : types.String;
  m_LogLevel : types.String;
  m_PassIdentityHeaders : types.Bool;
  m_ProxyLogLevel : types.String;
  m_SkipXffAppend : types.Bool;
  m_TimeoutIdle : types.String;
  m_TimeoutRead : types.String;
  m_TimeoutWrite : types.String;
  m_TracingSampleRate : types.Float64;
  m_CodecType : types.String
}.

(** The [tfsdk] tags of [ClusterSettingsResourceModel], in the order of its
    fields. *)
Definition ClusterSettingsResourceModel_tags : list string :=
  ["id"; "address"; "authenticate_service_url"; "auto_apply_changesets"; "cookie_expire";
   "cookie_http_only"; "cookie_name"; "default_upstream_timeout"; "dns_lookup_family";
   "identity_provider"; "identity_provider_client_id"; "identity_provider_client_secret";
   "identity_provider_url"; "log_level"; "pass_identity_headers"; "proxy_log_level";
   "skip_xff_append"; "timeout_idle"; "timeout_read"; "timeout_write";
   "tracing_sample_rate"; "codec_type"].

(** [ClusterSettingsResource.Schema]: the names of the attributes it
    declares, in the order of the source. *)
Definition ClusterSettingsResource_Schema : list string :=
  ["id"; "address"; "auto_apply_changesets"; "cookie_expire"; "cookie_http_only";
   "cookie_name"; "default_upstream_timeout"; "dns_lookup_family"; "identity_provider";
   "identity_provider_client_id"; "identity_provider_client_secret";
   "identity_provider_url"; "authenticate_service_url"; "log_level";
   "pass_identity_headers"; "proxy_log_level"; "skip_xff_append"; "timeout_idle";
   "timeout_read"; "timeout_write"; "tracing_sample_rate"].

(** [req.State.Get(ctx, &state)], [req.Plan.Get(ctx, &plan)],
    [req.Config.Get(ctx, &data)] and [resp.State.Set(ctx, &state)] of this
    resource: the diagnostic, if any, with which the framework refuses to
    convert between an object of [Schema] and a [ClusterSettingsResourceModel].
    The methods below take the objects of a request in the shape of the
    struct that [Get] is asked to fill. *)
Definition ClusterSettingsResource_conversion : option Diagnostic :=
  struct_mismatch ClusterSettingsResourceModel_tags ClusterSettingsResource_Schema.

(** [var state ClusterSettingsResourceModel]: every attribute is null. *)
Definition ClusterSettingsResourceModel_zero : ClusterSettingsResourceModel :=
  mkClusterSettingsResourceModel
    types.StringNull types.StringNull types.StringNull types.BoolNull types.StringNull
    types.BoolNull types.StringNull types.StringNull types.StringNull types.StringNull
    types.StringNull types.StringNull types.StringNull types.StringNull types.BoolNull
    types.StringNull types.BoolNull types.StringNull types.StringNull types.StringNull
    types.Float64Null types.StringNull.

(** [model.ID = v]. *)
Definition set_ID (model : ClusterSettingsResourceModel) (v : types.String)
  : ClusterSettingsResourceModel :=
  mkClusterSettingsResourceModel v
    (m_Address model) (m_AuthenticateServiceUrl model) (m_AutoApplyChangesets model)
    (m_CookieExpire model) (m_CookieHttpOnly model) (m_CookieName model)
    (m_DefaultUpstreamTimeout model) (m_DNSLookupFamily model) (m_IdentityProvider model)
    (m_IdentityProviderClientId model) (m_IdentityProviderClientSecret model)
    (m_IdentityProviderUrl model) (m_LogLevel model) (m_PassIdentityHeaders model)
    (m_ProxyLogLevel model) (m_SkipXffAppend model) (m_TimeoutIdle model)
    (m_TimeoutRead model) (m_TimeoutWrite model) (m_TracingSampleRate model)
    (m_CodecType model).

(** [model.ProxyLogLevel = v]. *)
Definition set_ProxyLogLevel (model : ClusterSettingsResourceModel) (v : types.String)
  : ClusterSettingsResourceModel :=
  mkClusterSettingsResourceModel (m_ID model)
    (m_Address model) (m_AuthenticateServiceUrl model) (m_AutoApplyChangesets model)
    (m_CookieExpire model) (m_CookieHttpOnly model) (m_CookieName model)
    (m_DefaultUpstreamTimeout model) (m_DNSLookupFamily model) (m_IdentityProvider model)
    (m_IdentityProviderClientId model) (m_IdentityProviderClientSecret model)
    (m_IdentityProviderUrl model) (m_LogLevel model) (m_PassIdentityHeaders model)
    v (m_SkipXffAppend model) (m_TimeoutIdle model)
    (m_TimeoutRead model) (m_TimeoutWrite model) (m_TracingSampleRate model)
    (m_CodecType model).

(** [if !v.IsNull() && v.ValueString() == "" { v = types.StringNull() }]. *)
Definition normalizeProxyLogLevel (v : types.String) : types.String :=
  if negb (types.IsNull v) && String.eqb (types.ValueString v) "" then types.StringNull
  else v.

(** [ValidateConfig]: the diagnostics it adds for the configuration [data]. *)
Definition ValidateConfig (data : ClusterSettingsResourceModel) : list Diagnostic :=
  match ClusterSettingsResource_conversion with  (* req.Config.Get *)
  | Some d => [d]
  | None =>
  let data := set_ProxyLogLevel data (normalizeProxyLogLevel (m_ProxyLogLevel data)) in
  let idpFieldsSet :=
    negb (types.IsNull (m_IdentityProvider data))
    || negb (types.IsNull (m_IdentityProviderClientId data))
    || negb (types.IsNull (m_IdentityProviderClientSecret data))
    || negb (types.IsNull (m_IdentityProviderUrl data))
    || negb (types.IsNull (m_AuthenticateServiceUrl data)) in
  if idpFieldsSet then
    if types.IsNull (m_IdentityProvider data)
       || types.IsNull (m_IdentityProviderClientId data)
       || types.IsNull (m_IdentityProviderClientSecret data)
       || types.IsNull (m_IdentityProviderUrl data)
       || types.IsNull (m_AuthenticateServiceUrl data)
    then [("Invalid Identity Provider Configuration",
           "When configuring a custom identity provider, all related fields (identity_provider, "
           +:+ "identity_provider_client_id, identity_provider_client_secret, "
           +:+ "identity_provider_url, authenticate_service_url) must be provided.")]
    else []
  else []
  end.

Definition updateClusterSettingsResourceModel (model : ClusterSettingsResourceModel)
    (settings : ClusterSettings) : ClusterSettingsResourceModel :=
  {| m_ID := m_ID model;
     m_Address := types.StringValue (cs_Address settings);
     m_AuthenticateServiceUrl := types.StringValue (cs_AuthenticateServiceUrl settings);
     m_AutoApplyChangesets := types.BoolValue (cs_AutoApplyChangesets settings);
     m_CookieExpire := types.StringValue (cs_CookieExpire settings);
     m_CookieHttpOnly := types.BoolValue (cs_CookieHttpOnly settings);
     m_CookieName := types.StringValue (cs_CookieName settings);
     m_DefaultUpstreamTimeout := types.StringValue (cs_DefaultUpstreamTimeout settings);
     m_DNSLookupFamily := types.StringValue (cs_DNSLookupFamily settings);
     m_IdentityProvider := types.StringValue (cs_IdentityProvider settings);
     m_IdentityProviderClientId := types.StringValue (cs_IdentityProviderClientId settings);
     m_IdentityProviderClientSecret :=
       match cs_IdentityProviderClientSecret settings with
       | Some secret => types.StringValue secret
       | None => types.StringNull
       end;
     m_IdentityProviderUrl := types.StringValue (cs_IdentityProviderUrl settings);
     m_LogLevel := types.StringValue (cs_LogLevel settings);
     m_PassIdentityHeaders := types.BoolValue (cs_PassIdentityHeaders settings);
     m_ProxyLogLevel :=
       if String.eqb (cs_ProxyLogLevel settings) "" then types.StringNull
       else types.StringValue (cs_ProxyLogLevel settings);
     m_SkipXffAppend := types.BoolValue (cs_SkipXffAppend settings);
     m_TimeoutIdle := types.StringValue (cs_TimeoutIdle settings);
     m_TimeoutRead := types.StringValue (cs_TimeoutRead settings);
     m_TimeoutWrite := types.StringValue (cs_TimeoutWrite settings);
     m_TracingSampleRate := types.Float64Value (cs_TracingSampleRate settings);
     m_CodecType := m_CodecType model |}.

Definition createClusterSettingsRequest (model : ClusterSettingsResourceModel)
  : CreateClusterSettingsRequest :=
  {| ccs_ID := "";
     ccs_Address := types.ValueString (m_Address model);
     ccs_AuthenticateServiceUrl := types.ValueString (m_AuthenticateServiceUrl model);
     ccs_AutoApplyChangesets := types.ValueBool (m_AutoApplyChangesets model);
     ccs_CookieExpire := types.ValueString (m_CookieExpire model);
     ccs_CookieHttpOnly := types.ValueBool (m_CookieHttpOnly model);
     ccs_CookieName := types.ValueString (m_CookieName model);
     ccs_DefaultUpstreamTimeout := types.ValueString (m_DefaultUpstreamTimeout model);
     ccs_DNSLookupFamily := types.ValueString (m_DNSLookupFamily model);
     ccs_IdentityProvider := types.ValueString (m_IdentityProvider model);
     ccs_IdentityProviderClientId := types.ValueString (m_IdentityProviderClientId model);
     ccs_IdentityProviderClientSecret :=
       types.ValueString (m_IdentityProviderClientSecret model);
     ccs_IdentityProviderUrl := types.ValueString (m_IdentityProviderUrl model);
     ccs_LogLevel := types.ValueString (m_LogLevel model);
     ccs_PassIdentityHeaders := types.ValueBool (m_PassIdentityHeaders model);
     ccs_ProxyLogLevel := types.ValueString (m_ProxyLogLevel model);
     ccs_SkipXffAppend := types.ValueBool (m_SkipXffAppend model);
     ccs_TimeoutIdle := types.ValueString (m_TimeoutIdle model);
     ccs_TimeoutRead := types.ValueString (m_TimeoutRead model);
     ccs_TimeoutWrite := types.ValueString (m_TimeoutWrite model);
     ccs_TracingSampleRate := types.ValueFloat64 (m_TracingSampleRate model);
     ccs_CodecType := types.ValueString (m_CodecType model) |}.

(** [if !v.IsNull() { field = v.ValueString() }] on a field that starts empty. *)
Definition unless_null (v : types.String) : string :=
  if negb (types.IsNull v) then types.ValueString v else "".

Definition updateClusterSettingsRequest (model : ClusterSettingsResourceModel)
  : UpdateClusterSettingsRequest :=
  {| ucs_Address := types.ValueString (m_Address model);
     ucs_AuthenticateServiceUrl := unless_null (m_AuthenticateServiceUrl model);
     ucs_AutoApplyChangesets := types.ValueBool (m_AutoApplyChangesets model);
     ucs_CookieExpire := types.ValueString (m_CookieExpire model);
     ucs_CookieHttpOnly := types.ValueBool (m_CookieHttpOnly model);
     ucs_CookieName := types.ValueString (m_CookieName model);
     ucs_DefaultUpstreamTimeout := types.ValueString (m_DefaultUpstreamTimeout model);
     ucs_DNSLookupFamily := types.ValueString (m_DNSLookupFamily model);
     ucs_IdentityProvider := unless_null (m_IdentityProvider model);
     ucs_IdentityProviderClientId := unless_null (m_IdentityProviderClientId model);
     ucs_IdentityProviderClientSecret :=
       if negb (types.IsNull (m_IdentityProviderClientSecret model))
       then Some (types.ValueString (m_IdentityProviderClientSecret model))
       else None;
     ucs_IdentityProviderUrl := unless_null (m_IdentityProviderUrl model);
     ucs_LogLevel := types.ValueString (m_LogLevel model);
     ucs_PassIdentityHeaders := types.ValueBool (m_PassIdentityHeaders model);
     ucs_ProxyLogLevel :=
       if negb (types.IsNull (m_ProxyLogLevel model))
          && negb (String.eqb (types.ValueString (m_ProxyLogLevel model)) "")
       then types.ValueString (m_ProxyLogLevel model)
       else "";
     ucs_SkipXffAppend := types.ValueBool (m_SkipXffAppend model);
     ucs_TimeoutIdle := types.ValueString (m_TimeoutIdle model);
     ucs_TimeoutRead := types.ValueString (m_TimeoutRead model);
     ucs_TimeoutWrite := types.ValueString (m_TimeoutWrite model);
     ucs_TracingSampleRate := types.ValueFloat64 (m_TracingSampleRate model);
     ucs_CodecType := types.ValueString (m_CodecType model) |}.

Definition settings_url (organizationID id : string) : string :=
  apiBaseURL +:+ "/organizations/" +:+ organizationID +:+ "/clusters/" +:+ id +:+ "/settings".

(** [settings.ID = id] on the decoded response. *)
Definition with_ID (settings : ClusterSettings) (id : string) : ClusterSettings :=
  mkClusterSettings id
    (cs_Address settings) (cs_AuthenticateServiceUrl settings) (cs_AutoApplyChangesets settings)
    (cs_CookieExpire settings) (cs_CookieHttpOnly settings) (cs_CookieName settings)
    (cs_DefaultUpstreamTimeout settings) (cs_DNSLookupFamily settings)
    (cs_IdentityProvider settings) (cs_IdentityProviderClientId settings)
    (cs_IdentityProviderClientSecret settings) (cs_IdentityProviderUrl settings)
    (cs_LogLevel settings) (cs_PassIdentityHeaders settings) (cs_ProxyLogLevel settings)
    (cs_SkipXffAppend settings) (cs_TimeoutIdle settings) (cs_TimeoutRead settings)
    (cs_TimeoutWrite settings) (cs_TracingSampleRate settings).

Definition createClusterSettings (E : Env) (r : ClusterSettingsResource)
    (settings : CreateClusterSettingsRequest) : IO (option ClusterSettings * error) :=
  let url := settings_url (settings_organizationID r) (ccs_ID settings) in
  match Marshal_CreateClusterSettingsRequest E settings with
  | inl err => mret (None, Errorf ("error marshaling settings: " +:+ err))
  | inr body =>
    match NewRequestWithContext E "POST" url (Some body) with
    | (_, Some err) => mret (None, Errorf ("error creating request: " +:+ err))
    | (req, None) =>
      let req := Header_Set req "Authorization" ("Bearer " +:+ settings_token r) in
      let req := Header_Set req "Content-Type" "application/json" in
      res ← Do E req;
      match res with
      | inl err => mret (None, Errorf ("error making request: " +:+ err))
      | inr resp =>
        if negb (StatusCode resp =? StatusCreated)%Z then
          let '(bodyBytes, _) := ReadAll (RespBody resp) in
          mret (None,
                Errorf ("unexpected status code: " +:+ itoa (StatusCode resp)
                        +:+ ". Response body: " +:+ bodyBytes))
        else
          match Decode_ClusterSettings E (RespBody resp) with
          | inl err => mret (None, Errorf ("error decoding response: " +:+ err))
          | inr createdSettings => mret (Some createdSettings, None)
          end
      end
    end
  end.

Definition getClusterSettings (E : Env) (r : ClusterSettingsResource) (id : string)
  : IO (option ClusterSettings * error) :=
  let url := settings_url (settings_organizationID r) id in
  match NewRequestWithContext E "GET" url None with
  | (_, Some err) => mret (None, Errorf ("error creating request: " +:+ err))
  | (req, None) =>
    let req := Header_Set req "Authorization" ("Bearer " +:+ settings_token r) in
    let req := Header_Set req "Content-Type" "application/json" in
    res ← Do E req;
    match res with
    | inl err => mret (None, Errorf ("error making request: " +:+ err))
    | inr resp =>
      if negb (StatusCode resp =? StatusOK)%Z then
        let '(bodyBytes, _) := ReadAll (RespBody resp) in
        mret (None,
              Errorf ("unexpected status code: " +:+ itoa (StatusCode resp)
                      +:+ ". Response body: " +:+ bodyBytes))
      else
        match Decode_ClusterSettings E (RespBody resp) with
        | inl err => mret (None, Errorf ("error decoding response: " +:+ err))
        | inr settings => mret (Some (with_ID settings id), None)
        end
    end
  end.

Definition updateClusterSettings (E : Env) (r : ClusterSettingsResource) (id : string)
    (settings : UpdateClusterSettingsRequest) : IO (option ClusterSettings * error) :=
  let url := settings_url (settings_organizationID r) id in
  match Marshal_UpdateClusterSettingsRequest E settings with
  | inl err => mret (None, Errorf ("error marshaling settings: " +:+ err))
  | inr body =>
    match NewRequestWithContext E "PUT" url (Some body) with
    | (_, Some err) => mret (None, Errorf ("error creating request: " +:+ err))
    | (req, None) =>
      let req := Header_Set req "Authorization" ("Bearer " +:+ settings_token r) in
      let req := Header_Set req "Content-Type" "application/json" in
      res ← Do E req;
      match res with
      | inl err => mret (None, Errorf ("error making request: " +:+ err))
      | inr resp =>
        if negb (StatusCode resp =? StatusOK)%Z then
          let '(bodyBytes, _) := ReadAll (RespBody resp) in
          mret (None,
                Errorf ("unexpected status code: " +:+ itoa (StatusCode resp)
                        +:+ ". Response body: " +:+ bodyBytes))
        else
          match Decode_ClusterSettings E (RespBody resp) with
          | inl err => mret (None, Errorf ("error decoding response: " +:+ err))
          | inr updatedSettings => mret (Some updatedSettings, None)
          end
      end
    end
  end.

Definition deleteClusterSettings (E : Env) (r : ClusterSettingsResource) (id : string)
  : IO error :=
  let url := settings_url (settings_organizationID r) id in
  match NewRequestWithContext E "DELETE" url None with
  | (_, Some err) => mret (Errorf ("error creating request: " +:+ err))
  | (req, None) =>
    let req := Header_Set req "Authorization" ("Bearer " +:+ settings_token r) in
    res ← Do E req;
    match res with
    | inl err => mret (Errorf ("error making request: " +:+ err))
    | inr resp =>
      if negb (StatusCode resp =? StatusNoContent)%Z then
        let '(bodyBytes, _) := ReadAll (RespBody resp) in
        mret (Errorf ("unexpected status code: " +:+ itoa (StatusCode resp)
                      +:+ ". Response body: " +:+ bodyBytes))
      else mret None
    end
  end.

(** [ClusterSettingsResource.Create]; there is no prior state. *)
Definition ClusterSettingsResource_Create (E : Env) (r : ClusterSettingsResource)
    (plan config : ClusterSettingsResourceModel)
  : IO (StateResponse ClusterSettingsResourceModel) :=
  match ClusterSettingsResource_conversion with  (* req.Plan.Get *)
  | Some d => mret (mkStateResponse None [d])
  | None =>
  match ValidateConfig config with
  | d :: ds => mret (mkStateResponse None (d :: ds))
  | [] =>
    let settingsReq := createClusterSettingsRequest plan in
    '(settings, err) ← createClusterSettings E r settingsReq;
    match err, settings with
    | Some e, _ => mret (mkStateResponse None [("Error creating cluster settings", e)])
    | None, Some settings =>
        let plan := set_ID plan (types.StringValue (cs_ID settings)) in
        match ClusterSettingsResource_conversion with  (* resp.State.Set *)
        | Some d => mret (mkStateResponse None [d])
        | None => mret (mkStateResponse (Some plan) [])
        end
    | None, None => lift (Panics "invalid memory address or nil pointer dereference")
    end
  end
  end.


(** [ClusterSettingsResource.Update]; [state] is the prior state, which the
    response keeps unless the handler sets a new one. *)
Definition ClusterSettingsResource_Update (E : Env) (r : ClusterSettingsResource)
    (plan config state : ClusterSettingsResourceModel)
  : IO (StateResponse ClusterSettingsResourceModel) :=
  match ClusterSettingsResource_conversion with  (* req.Plan.Get *)
  | Some d => mret (mkStateResponse (Some state) [d])
  | None =>
  let plan := set_ProxyLogLevel plan (normalizeProxyLogLevel (m_ProxyLogLevel plan)) in
  match ValidateConfig config with
  | d :: ds => mret (mkStateResponse (Some state) (d :: ds))
  | [] =>
    let id := types.ValueString (m_ID plan) in
    let settingsReq := updateClusterSettingsRequest plan in
    '(settings, err) ← updateClusterSettings E r id settingsReq;
    match err, settings with
    | Some e, _ =>
        mret (mkStateResponse (Some state) [("Error updating cluster settings", e)])
    | None, Some settings =>
        let plan := updateClusterSettingsResourceModel plan settings in
        match ClusterSettingsResource_conversion with  (* resp.State.Set *)
        | Some d => mret (mkStateResponse (Some state) [d])
        | None => mret (mkStateResponse (Some plan) [])
        end
    | None, None => lift (Panics "invalid memory address or nil pointer dereference")
    end
  end
  end.

(** [ClusterSettingsResource.ImportState] for the import identifier [id];
    [imported] is the state after [SetAttribute] has stored the id, which
    converts no struct. *)
Definition ClusterSettingsResource_ImportState (E : Env) (r : ClusterSettingsResource)
    (id : string) : IO (StateResponse ClusterSettingsResourceModel) :=
  let imported := set_ID ClusterSettingsResourceModel_zero (types.StringValue id) in
  '(settings, err) ← getClusterSettings E r id;
  match err, settings with
  | Some e, _ =>
      mret (mkStateResponse (Some imported)
              [("Error importing cluster settings",
                "Unable to read cluster settings for " +:+ id +:+ ", error: " +:+ e)])
  | None, Some settings =>
      let state := updateClusterSettingsResourceModel ClusterSettingsResourceModel_zero settings in
      let state := set_ID state (types.StringValue (cs_ID settings)) in
      match ClusterSettingsResource_conversion with  (* resp.State.Set *)
      | Some d => mret (mkStateResponse (Some imported) [d])
      | None => mret (mkStateResponse (Some state) [])
      end
  | None, None => lift (Panics "invalid memory address or nil pointer dereference")
  end.




(** ** The provider session (provider.go) *)

Record pomeriumZeroProvider : Type := mkProvider {
  version : string;
  token : string;
  organizationID : string
}.

(** [req.Header.Add(key, value)]. *)
Definition Header_Add (req : Request) (key value : string) : Request :=
  mkRequest (Method req) (URL req) (Header req ++ [(key, value)])%list (Body req).

Definition getOrganizationID (E : Env) (p : pomeriumZeroProvider) : IO (string * error) :=
  match NewRequestWithContext E "GET" organizationsEndpoint None with
  | (_, Some err) => mret ("", Some err)
  | (req, None) =>
    let req := Header_Add req "Authorization" ("Bearer " +:+ token p) in
    let req := Header_Add req "Content-Type" "application/json" in
    res ← Do E req;
    match res with
    | inl err => mret ("", Some err)
    | inr resp =>
      if negb (StatusCode resp =? StatusOK)%Z then
        mret ("", Errorf ("unexpected status code: " +:+ itoa (StatusCode resp)))
      else
        match Decode_Organizations E (RespBody resp) with
        | inl err => mret ("", Some err)
        | inr organizations =>
            if negb (length organizations =? 1)%nat then
              mret ("", Errorf "unexpected number of organizations returned")
            else
              match organizations with
              | org :: _ => mret (org_ID org, None)
              | [] => lift (Panics "index out of range [0] with length 0")
              end
        end
    end
  end.

(** ** Vocabulary of the statements *)

(** The value is a Go [string]. *)
Definition is_string (v : any) : bool :=
  match v with AnyString _ => true | _ => false end.

(** The value is a Go [bool]. *)
Definition is_bool (v : any) : bool :=
  match v with AnyBool _ => true | _ => false end.

(** The value is a [[]interface{}]. *)
Definition is_slice (v : any) : bool :=
  match v with AnySlice _ => true | _ => false end.

(** The computation returns, that is, it does not panic. *)
Definition returns {A} (o : outcome A) : bool :=
  match o with Returns _ => true | Panics _ => false end.

(** The character occurs in the string. *)
Fixpoint occurs (c : ascii) (s : string) : bool :=
  match s with
  | EmptyString => false
  | String a s' => if Ascii.eqb a c then true else occurs c s'
  end.

(** The requests added to the log [log] by a computation that ends with the
    log [log']. *)
Definition sent (log log' : list Request) : list Request := drop (length log) log'.

(** The response to the one request sent between [log] and [log'], if exactly
    one was sent and the transport delivered a response. *)
Definition response_to (E : Env) (log log' : list Request) : option Response :=
  match sent log log' with
  | [req] => match client_Do E log req with
             | inr resp => Some resp
             | inl _ => None
             end
  | _ => None
  end.

(** A helper returns an error exactly when the response it received has a
    status other than [expected]. *)
Definition error_iff_status_differs {A} (E : Env) (expected : Z) (h : IO (A * error))
  : Prop :=
  forall log,
    let '(out, log') := h log in
    forall resp data err,
      response_to E log log' = Some resp ->
      out = Returns (data, err) ->
      (err ≠ None <-> StatusCode resp ≠ expected).

(** A computation sends at most one request: the log is unchanged or grows
    by exactly one request. *)
Definition at_most_one_request {A} (m : IO A) : Prop :=
  forall log, (m log).2 = log \/ exists req, (m log).2 = (log ++ [req])%list.

(** *** Where a helper can fail

    A helper runs its steps in order and returns at the first one that
    fails: marshalling the document, building the request, sending it, and
    the checks on the response. *)

(** The error text of a library call that failed. *)
Definition failure {A} (result : string + A) : option string :=
  match result with inl err => Some err | inr _ => None end.

(** What keeps a request from going out, if anything: the document does not
    marshal ([marshalled] is [None] for a request without a body), or else
    [http.NewRequestWithContext] refuses the URL. *)
Definition unsendable (E : Env) (marshalled : option (string + string)) (url : string)
  : option string :=
  match marshalled with
  | Some (inl err) => Some err
  | _ => url_Parse E url
  end.

(** The body of the response can be read to its end and unmarshals. *)
Definition unmarshals {A} (unmarshal : string -> string + A) (resp : Response) : bool :=
  match read_error (RespBody resp), unmarshal (content (RespBody resp)) with
  | None, inr _ => true
  | _, _ => false
  end.

(** The body of the response decodes. *)
Definition decodes {A} (decode : ReadCloser -> string + A) (resp : Response) : bool :=
  match decode (RespBody resp) with inr _ => true | inl _ => false end.

(** A helper with result [(data, err)] returns an error exactly when the
    request cannot be built ([before] is the reason) or is not answered, or
    the answer has a status other than [expected] or a body that is not
    [usable]; it sends one request, and none when the request cannot be
    built; and whenever it returns an error the data is [zero]. *)
Definition fails_exactly_when {A} (E : Env) (before : option string) (expected : Z)
    (usable : Response -> bool) (zero : A) (h : IO (A * error)) : Prop :=
  forall log,
    let '(out, log') := h log in
    (forall data msg, out = Returns (data, Some msg) -> data = zero)
    /\ match before with
       | Some _ => sent log log' = [] /\ exists msg, out = Returns (zero, Some msg)
       | None =>
           exists req, sent log log' = [req] /\
             match client_Do E log req with
             | inl _ => exists msg, out = Returns (zero, Some msg)
             | inr resp =>
                 if (StatusCode resp =? expected)%Z && usable resp
                 then forall data msg, out ≠ Returns (data, Some msg)
                 else exists msg, out = Returns (zero, Some msg)
             end
       end.

(** The same for a delete helper, whose only result is the error and which
    does not look at the body: once answered, it returns an error exactly
    when the status is not 204. *)
Definition delete_fails_exactly_when (E : Env) (before : option string) (h : IO error)
  : Prop :=
  forall log,
    let '(out, log') := h log in
    match before with
    | Some _ => sent log log' = [] /\ exists msg, out = Returns (Some msg)
    | None =>
        exists req, sent log log' = [req] /\
          match client_Do E log req with
          | inl _ => exists msg, out = Returns (Some msg)
          | inr resp =>
              exists err, out = Returns err
                          /\ (err ≠ None <-> StatusCode resp ≠ StatusNoContent)
          end
    end.

(** The text of a status check that failed, without and with the body. *)
Definition status_text (resp : Response) : string :=
  "unexpected status code: " +:+ itoa (StatusCode resp).

Definition status_text_with_body (resp : Response) : string :=
  "unexpected status code: " +:+ itoa (StatusCode resp)
  +:+ ". Response body: " +:+ content (RespBody resp).

(** The first check that fails on a response, for a helper that reads the
    whole body, then checks the status, then unmarshals the body. *)
Definition rejected_after_reading {A} (expected : Z) (unmarshal : string -> string + A)
    (resp : Response) : option string :=
  match read_error (RespBody resp) with
  | Some err => Some err
  | None =>
      if (StatusCode resp =? expected)%Z then failure (unmarshal (content (RespBody resp)))
      else Some (status_text_with_body resp)
  end.

(** The same for [updatePolicy], which answers a 404 with a text of its own. *)
Definition updatePolicy_rejected (E : Env) (policyID : string) (resp : Response)
  : option string :=
  match read_error (RespBody resp) with
  | Some err => Some err
  | None =>
      if (StatusCode resp =? StatusNotFound)%Z
      then Some ("policy with ID " +:+ policyID
                 +:+ " not found. It may have been deleted outside of Terraform")
      else rejected_after_reading StatusOK (Unmarshal_Policy E) resp
  end.

(** The first check that fails on a response, for a helper that checks the
    status, with the error text [text], and then decodes the body. *)
Definition rejected_by_status {A} (expected : Z) (text : Response -> string)
    (decode : ReadCloser -> string + A) (resp : Response) : option string :=
  if (StatusCode resp =? expected)%Z then failure (decode (RespBody resp))
  else Some (text resp).

(** A delete helper decodes nothing. *)
Definition no_body (b : ReadCloser) : string + unit := inr tt.

(** A helper returns at the first step that fails: when the request cannot
    be built ([before] is the reason) it sends nothing; otherwise it sends
    one request, and an error of the transport or the first check that the
    response fails ([after]) is what it returns.  The error it returns ends
    with the text of that first failure, and it returns no error when no
    step fails. *)
Definition stops_at_first_error {A} (E : Env) (before : option string)
    (after : Response -> option string) (h : IO (A * error)) : Prop :=
  forall log,
    let '(out, log') := h log in
    match before with
    | Some cause =>
        log' = log /\ exists pre data, out = Returns (data, Some (pre +:+ cause))
    | None =>
        exists req, log' = (log ++ [req])%list /\
          match client_Do E log req with
          | inl cause => exists pre data, out = Returns (data, Some (pre +:+ cause))
          | inr resp =>
              match after resp with
              | Some cause => exists pre data, out = Returns (data, Some (pre +:+ cause))
              | None => forall data msg, out ≠ Returns (data, Some msg)
              end
          end
    end.

Definition delete_stops_at_first_error (E : Env) (before : option string)
    (after : Response -> option string) (h : IO error) : Prop :=
  forall log,
    let '(out, log') := h log in
    match before with
    | Some cause => log' = log /\ exists pre, out = Returns (Some (pre +:+ cause))
    | None =>
        exists req, log' = (log ++ [req])%list /\
          match client_Do E log req with
          | inl cause => exists pre, out = Returns (Some (pre +:+ cause))
          | inr resp =>
              match after resp with
              | Some cause => exists pre, out = Returns (Some (pre +:+ cause))
              | None => out = Returns None
              end
          end
    end.

(** ** Sample environments and inputs

    Concrete worlds on which the statements below are exercised.  The body
    texts are placeholders: what a body decodes to is given by the
    environment, and no statement depends on the text itself. *)

(** An environment in which every URL parses, every request gets the answer
    [answer], and a body decodes to the given documents. *)
Definition sample_env (answer : string + Response)
    (route : string + gomap) (policy : string + Policy)
    (settings : string + ClusterSettings) (orgs : string + list Organization) : Env :=
  {| url_Parse := fun _ => None;
     client_Do := fun _ _ => answer;
     Marshal_map := fun _ => inr "{}";
     Marshal_CreatePolicyRequest := fun _ => inr "{}";
     Marshal_UpdatePolicyRequest := fun _ => inr "{}";
     Marshal_CreateClusterSettingsRequest := fun _ => inr "{}";
     Marshal_UpdateClusterSettingsRequest := fun _ => inr "{}";
     Unmarshal_map := fun _ => route;
     Unmarshal_Policy := fun _ => policy;
     Unmarshal_any := fun _ => inr AnyNil;
     Decode_map := fun _ => route;
     Decode_Policy := fun _ => policy;
     Decode_ClusterSettings := fun _ => settings;
     Decode_Organizations := fun _ => orgs;
     ListValueFrom := fun l =>
       types.ListValue
         (map (fun v => match v with
                        | AnyString s => types.StringValue s
                        | _ => types.StringNull
                        end) l);
     ElementsAs := fun l =>
       match l with
       | types.ListValue elems => Some (map types.ValueString elems)
       | _ => None
       end |}.

Definition not_json : string := "invalid character 'o' looking for beginning of value".

Definition respond (status : Z) (text : string) : string + Response :=
  inr (mkResponse status (mkBody text None)).

(** The API answers 200 to a route read, with a body that is not JSON. *)
Definition env_garbled_route : Env :=
  sample_env (respond 200 "oops") (inl not_json) (inl not_json) (inl not_json) (inl not_json).

(** The API answers 404 with an empty body. *)
Definition env_not_found : Env :=
  sample_env (respond 404 "") (inl not_json) (inl not_json) (inl not_json) (inl not_json).

Definition dquote : string := String (ascii_of_nat 34) EmptyString.

(** The transport fails before any response arrives: a proxy refuses the
    tunnel, and the error of [client.Do] carries the proxy's status text. *)
Definition env_broken_transport : Env :=
  sample_env
    (inl ("Get " +:+ dquote
          +:+ "https://console.pomerium.app/api/v0/organizations/org-1/policies/p1"
          +:+ dquote +:+ ": policy not found"))
    (inl not_json) (inl not_json) (inl not_json) (inl not_json).

Definition sample_policy (id : string) : Policy :=
  mkPolicy id "allow-all" "null" true "" "ns-1" "{}" "null" [].

(** The API answers a policy read with the policy [p2]. *)
Definition env_policy_p2 : Env :=
  sample_env (respond 200 "{}") (inl not_json) (inr (sample_policy "p2"))
    (inl not_json) (inl not_json).

Definition sample_settings (id : string) : ClusterSettings :=
  mkClusterSettings id ":443" "" true "14h" true "_pomerium" "30s" "V4_PREFERRED"
    "" "" None "" "info" false "" false "5m" "30s" "0s" 0%Z.

(** The API answers a settings read or update with settings whose own id is
    [settings-77]. *)
Definition env_settings : Env :=
  sample_env (respond 200 "{}") (inl not_json) (inl not_json)
    (inr (sample_settings "settings-77")) (inl not_json).

(** The organizations endpoint answers with the given list. *)
Definition env_orgs (orgs : list Organization) : Env :=
  sample_env (respond 200 "[]") (inl not_json) (inl not_json) (inl not_json) (inr orgs).

Definition sample_route_resource : RouteResource := mkRouteResource "jwt" "org-1".
Definition sample_policy_resource : PolicyResource := mkPolicyResource "jwt" "org-1".
Definition sample_settings_resource : ClusterSettingsResource :=
  mkClusterSettingsResource "jwt" "org-1".
Definition sample_provider : pomeriumZeroProvider := mkProvider "dev" "jwt" "".

Definition sample_policy_state (id : string) : PolicyResourceModel :=
  mkPolicyResourceModel (types.StringValue id) (types.StringValue "allow-all")
    (types.StringValue "") (types.BoolValue true) (types.StringValue "")
    (types.StringValue "ns-1") (types.StringValue "{}") (types.StringValue "").

Definition sample_settings_state (id : string) : ClusterSettingsResourceModel :=
  set_ID ClusterSettingsResourceModel_zero (types.StringValue id).

(** A route document with the four required strings and nothing else. *)
Definition sample_route_document : gomap :=
  Some (<["id" := AnyString "r1"]>
        (<["name" := AnyString "verify"]>
        (<["namespaceId" := AnyString "ns-1"]>
        (<["from" := AnyString "https://verify.example.com"]> ∅)))).



(** ** Further handlers: what they need from the libraries

    The data sources, the policy listing and the token exchange decode
    documents of their own; [DataEnv] extends [Env] with these decoders. *)

(** A cluster as the clusters endpoint lists it (models.go). *)
Record Cluster : Type := mkCluster {
  Cluster_ID : string;
  Cluster_Name : string;
  Cluster_NamespaceID : string;
  Cluster_Domain : string;
  Cluster_FQDN : string;
  Cluster_AutoDetectIPAddress : string;
  Cluster_CreatedAt : string;
  Cluster_UpdatedAt : string
}.

Record DataEnv : Type := mkDataEnv {
  base : Env;
  (** [json.NewDecoder(body).Decode] into [[]Cluster]; a nil slice is the empty list. *)
  Decode_Clusters : ReadCloser -> string + list Cluster;
  (** [json.Unmarshal] into [[]Policy]. *)
  Unmarshal_Policies : string -> string + list Policy;
  (** [json.NewDecoder(body).Decode] into [[]*Policy]; a JSON null element is a nil pointer. *)
  Decode_PolicyPointers : ReadCloser -> string + list (option Policy);
  (** [json.NewDecoder(body).Decode] into [struct{ IDToken string }]. *)
  Decode_IDToken : ReadCloser -> string + string;
  (** [json.MarshalIndent] of the list of resource maps. *)
  MarshalIndent_maps : list (gmap string any) -> string + string
}.

(** ** Routes: the resource methods *)

(** [RouteResource.Create]; there is no prior state. *)
Definition RouteResource_Create (E : Env) (r : RouteResource) (plan : RouteResourceModel)
  : IO (StateResponse RouteResourceModel) :=
  '(route, err) ← createRoute E r plan;
  match err with
  | Some e =>
      mret (mkStateResponse None
              [("Error creating route",
                "Could not create route, unexpected error: " +:+ e)])
  | None =>
      match RouteResource_State_Set route with  (* resp.State.Set *)
      | Some d => mret (mkStateResponse None [d])
      | None => mret (mkStateResponse (Some route) [])
      end
  end.

(** [RouteResource.Update]; [state] is the prior state. *)
Definition RouteResource_Update (E : Env) (r : RouteResource)
    (plan state : RouteResourceModel) : IO (StateResponse RouteResourceModel) :=
  '(route, err) ← updateRoute E r plan;
  match err with
  | Some e =>
      mret (mkStateResponse (Some state)
              [("Error Updating Route",
                "Could not update route, unexpected error: " +:+ e)])
  | None =>
      match RouteResource_State_Set route with  (* resp.State.Set *)
      | Some d => mret (mkStateResponse (Some state) [d])
      | None => mret (mkStateResponse (Some route) [])
      end
  end.

(** [RouteResource.Delete]: the diagnostics it reports. *)
Definition RouteResource_Delete (E : Env) (r : RouteResource) (state : RouteResourceModel)
  : IO (list Diagnostic) :=
  err ← deleteRoute E r (types.ValueString (ID state));
  match err with
  | Some e =>
      mret [("Error Deleting Route",
             "Could not delete route, unexpected error: " +:+ e)]
  | None => mret []
  end.

(** ** Policies: the resource methods *)

(** [plan.ID = v]. *)
Definition set_policy_ID (model : PolicyResourceModel) (v : types.String)
  : PolicyResourceModel :=
  mkPolicyResourceModel v (pm_Name model) (pm_Description model) (pm_Enforced model)
    (pm_Explanation model) (pm_NamespaceID model) (pm_PPL model) (pm_Remediation model).

(** [PolicyResource.Create]; there is no prior state. *)
Definition PolicyResource_Create (E : Env) (r : PolicyResource) (plan : PolicyResourceModel)
  : IO (StateResponse PolicyResourceModel) :=
  let policyReq := createPolicyRequest E plan in
  '(policy, err) ← createPolicy E r policyReq;
  match err, policy with
  | Some e, _ => mret (mkStateResponse None [("Error creating policy", e)])
  | None, Some policy =>
      mret (mkStateResponse
              (Some (set_policy_ID plan (types.StringValue (Policy_ID policy)))) [])
  | None, None => lift (Panics "invalid memory address or nil pointer dereference")
  end.

(** [PolicyResource.Delete]: the diagnostics it reports. *)
Definition PolicyResource_Delete (E : Env) (r : PolicyResource) (state : PolicyResourceModel)
  : IO (list Diagnostic) :=
  err ← deletePolicy E r (types.ValueString (pm_ID state));
  match err with
  | Some e => mret [("Error deleting policy", e)]
  | None => mret []
  end.

(** [PolicyResource.ImportState] for the import identifier [policyID]. *)
Definition PolicyResource_ImportState (E : Env) (r : PolicyResource) (policyID : string)
  : IO (StateResponse PolicyResourceModel) :=
  let imported := set_policy_ID PolicyResourceModel_zero (types.StringValue policyID) in
  '(policy, err) ← getPolicy E r policyID;
  match err, policy with
  | Some e, _ =>
      mret (mkStateResponse (Some imported)
              [("Error importing policy",
                "Unable to read policy " +:+ policyID +:+ ", error: " +:+ e)])
  | None, Some policy =>
      mret (mkStateResponse
              (Some (updatePolicyResourceModel PolicyResourceModel_zero policy)) [])
  | None, None => lift (Panics "invalid memory address or nil pointer dereference")
  end.

(** [PolicyResource.listPolicies]. *)
Definition listPolicies (D : DataEnv) (r : PolicyResource)
  : IO (list (option Policy) * error) :=
  let url := policies_url (policy_organizationID r) in
  match NewRequestWithContext (base D) "GET" url None with
  | (_, Some err) => mret ([], Errorf ("error creating request: " +:+ err))
  | (req, None) =>
    let req := Header_Set req "Authorization" ("Bearer " +:+ policy_token r) in
    let req := Header_Set req "Content-Type" "application/json" in
    res ← Do (base D) req;
    match res with
    | inl err => mret ([], Errorf ("error making request: " +:+ err))
    | inr resp =>
      if negb (StatusCode resp =? StatusOK)%Z then
        mret ([], Errorf ("unexpected status code: " +:+ itoa (StatusCode resp)))
      else
        match Decode_PolicyPointers D (RespBody resp) with
        | inl err => mret ([], Errorf ("error decoding response: " +:+ err))
        | inr policies => mret (policies, None)
        end
    end
  end.

(** The loop of [GetSchemaResourceData]: one map per policy, appended in
    order; reading a field of a nil policy panics. *)
Fixpoint schema_resources (policies : list (option Policy))
    (resources : list (gmap string any)) : outcome (list (gmap string any)) :=
  match policies with
  | [] => Returns resources
  | None :: _ => Panics "invalid memory address or nil pointer dereference"
  | Some policy :: rest =>
      schema_resources rest
        (resources ++
           [ <["id" := AnyString (Policy_ID policy)]>
             (<["name" := AnyString (Policy_Name policy)]>
             (<["enforced" := AnyBool (Policy_Enforced policy)]> ∅)) ])%list
  end.

(** [PolicyResource.GetSchemaResourceData]; the bytes are [None] for nil. *)
Definition GetSchemaResourceData (D : DataEnv) (r : PolicyResource)
  : IO (option string * error) :=
  '(policies, err) ← listPolicies D r;
  match err with
  | Some e => mret (None, Errorf ("error listing policies: " +:+ e))
  | None =>
      resources ← lift (schema_resources policies []);
      match MarshalIndent_maps D resources with
      | inl e => mret (None, Errorf ("error marshaling JSON: " +:+ e))
      | inr data => mret (Some data, None)
      end
  end.

(** ** Cluster settings: Delete *)

(** [ClusterSettingsResource.Delete]: the diagnostics it reports. *)
Definition ClusterSettingsResource_Delete (E : Env) (r : ClusterSettingsResource)
    (state : ClusterSettingsResourceModel) : IO (list Diagnostic) :=
  match ClusterSettingsResource_conversion with  (* req.State.Get *)
  | Some d => mret [d]
  | None =>
  let id := types.ValueString (m_ID state) in
  err ← deleteClusterSettings E r id;
  match err with
  | Some e => mret [("Error deleting cluster settings", e)]
  | None => mret []
  end
  end.

(** ** The provider session: token exchange and Configure *)

(** [getToken]: exchanges the API token for the bearer token. *)
Definition getToken (D : DataEnv) (p : pomeriumZeroProvider) (apiToken : string)
  : IO (string * error) :=
  let payload := "{" +:+ dquote +:+ "refreshToken" +:+ dquote +:+ ": " +:+ dquote
                 +:+ apiToken +:+ dquote +:+ "}" in
  match NewRequestWithContext (base D) "POST" tokenEndpoint (Some payload) with
  | (_, Some err) => mret ("", Some err)
  | (req, None) =>
    let req := Header_Add req "Content-Type" "application/json" in
    res ← Do (base D) req;
    match res with
    | inl err => mret ("", Some err)
    | inr resp =>
      if negb (StatusCode resp =? StatusOK)%Z then
        mret ("", Errorf ("unexpected status code: " +:+ itoa (StatusCode resp)))
      else
        match Decode_IDToken D (RespBody resp) with
        | inl err => mret ("", Some err)
        | inr idToken => mret (idToken, None)
        end
    end
  end.




(** ** The cluster data source (cluster_data_source.go) *)

Record ClusterDataSource : Type := mkClusterDataSource {
  cluster_token : string;
  cluster_organizationID : string
}.

Record ClusterDataSourceModel : Type := mkClusterDataSourceModel {
  cd_ID : types.String;
  cd_Name : types.String;
  cd_NamespaceID : types.String;
  cd_Domain : types.String;
  cd_FQDN : types.String;
  cd_AutoDetectIPAddress : types.String;
  cd_CreatedAt : types.String;
  cd_UpdatedAt : types.String
}.

Definition GetClusters (D : DataEnv) (d : ClusterDataSource) : IO (list Cluster * error) :=
  let url := "https://console.pomerium.app/api/v0/organizations/"
             +:+ cluster_organizationID d +:+ "/clusters" in
  match NewRequestWithContext (base D) "GET" url None with
  | (_, Some err) => mret ([], Errorf ("error creating request: " +:+ err))
  | (req, None) =>
    let req := Header_Set req "Authorization" ("Bearer " +:+ cluster_token d) in
    let req := Header_Set req "Content-Type" "application/json" in
    res ← Do (base D) req;
    match res with
    | inl err => mret ([], Errorf ("error making request: " +:+ err))
    | inr resp =>
      if negb (StatusCode resp =? StatusOK)%Z then
        mret ([], Errorf ("unexpected status code: " +:+ itoa (StatusCode resp)))
      else
        match Decode_Clusters D (RespBody resp) with
        | inl err => mret ([], Errorf ("error decoding response: " +:+ err))
        | inr clusters => mret (clusters, None)
        end
    end
  end.

(** The loop of [ClusterDataSource.Read]: the first cluster with the name. *)
Fixpoint matchingCluster (clusters : list Cluster) (name : string) : option Cluster :=
  match clusters with
  | [] => None
  | cluster :: rest =>
      if String.eqb (Cluster_Name cluster) name then Some cluster
      else matchingCluster rest name
  end.

(** [ClusterDataSource.Read] on the configuration [data]. *)
Definition ClusterDataSource_Read (D : DataEnv) (d : ClusterDataSource)
    (data : ClusterDataSourceModel) : IO (StateResponse ClusterDataSourceModel) :=
  '(clusters, err) ← GetClusters D d;
  match err with
  | Some e => mret (mkStateResponse None [("Failed to fetch clusters", e)])
  | None =>
      match matchingCluster clusters (types.ValueString (cd_Name data)) with
      | None =>
          mret (mkStateResponse None
                  [("Cluster not found",
                    "No cluster found with name: " +:+ types.ValueString (cd_Name data))])
      | Some cluster =>
          mret (mkStateResponse (Some
            {| cd_ID := types.StringValue (Cluster_ID cluster);
               cd_Name := cd_Name data;
               cd_NamespaceID := types.StringValue (Cluster_NamespaceID cluster);
               cd_Domain := types.StringValue (Cluster_Domain cluster);
               cd_FQDN := types.StringValue (Cluster_FQDN cluster);
               cd_AutoDetectIPAddress :=
                 types.StringValue (Cluster_AutoDetectIPAddress cluster);
               cd_CreatedAt := types.StringValue (Cluster_CreatedAt cluster);
               cd_UpdatedAt := types.StringValue (Cluster_UpdatedAt cluster) |}) [])
      end
  end.

(** ** The policy data source (policy_data_source.go) *)

Record PolicyDataSource : Type := mkPolicyDataSource {
  pds_token : string;
  pds_organizationID : string
}.

Record PolicyDataSourceModel : Type := mkPolicyDataSourceModel {
  pd_ID : types.String;
  pd_Name : types.String;
  pd_NamespaceID : types.String
}.

Definition getPolicies (D : DataEnv) (d : PolicyDataSource) (namespaceID : string)
  : IO (list Policy * error) :=
  let url := apiBaseURL +:+ "/organizations/" +:+ pds_organizationID d
             +:+ "/policies?namespaceId=" +:+ namespaceID +:+ "&includeDescendants=true" in
  match NewRequestWithContext (base D) "GET" url None with
  | (_, Some err) => mret ([], Errorf ("error creating request: " +:+ err))
  | (req, None) =>
    let req := Header_Set req "Authorization" ("Bearer " +:+ pds_token d) in
    let req := Header_Set req "Content-Type" "application/json" in
    res ← Do (base D) req;
    match res with
    | inl err => mret ([], Errorf ("error making request: " +:+ err))
    | inr resp =>
      match ReadAll (RespBody resp) with
      | (_, Some err) => mret ([], Errorf ("error reading response body: " +:+ err))
      | (body, None) =>
        if negb (StatusCode resp =? StatusOK)%Z then
          mret ([], Errorf ("unexpected status code " +:+ itoa (StatusCode resp)
                            +:+ ": " +:+ body))
        else
          match Unmarshal_Policies D body with
          | inl err => mret ([], Errorf ("error parsing response: " +:+ err))
          | inr policies => mret (policies, None)
          end
      end
    end
  end.

(** The loop of [PolicyDataSource.Read]: the first policy with the name. *)
Fixpoint foundPolicy (policies : list Policy) (name : string) : option Policy :=
  match policies with
  | [] => None
  | policy :: rest =>
      if String.eqb (Policy_Name policy) name then Some policy
      else foundPolicy rest name
  end.

(** [PolicyDataSource.Read] on the configuration [data]. *)
Definition PolicyDataSource_Read (D : DataEnv) (d : PolicyDataSource)
    (data : PolicyDataSourceModel) : IO (StateResponse PolicyDataSourceModel) :=
  '(policies, err) ← getPolicies D d (types.ValueString (pd_NamespaceID data));
  match err with
  | Some e => mret (mkStateResponse None [("Error fetching policies", e)])
  | None =>
      match foundPolicy policies (types.ValueString (pd_Name data)) with
      | None =>
          mret (mkStateResponse None
                  [("Policy Not Found",
                    "No policy found with name: " +:+ types.ValueString (pd_Name data))])
      | Some policy =>
          mret (mkStateResponse (Some
            {| pd_ID := types.StringValue (Policy_ID policy);
               pd_Name := pd_Name data;
               pd_NamespaceID := pd_NamespaceID data |}) [])
      end
  end.

(** ** Vocabulary of the further statements *)

(** Every request a computation sends satisfies [P]. *)
Definition sends_only {A} (P : Request -> Prop) (m : IO A) : Prop :=
  forall log, Forall P (sent log (m log).2).

(** The request has the given verb, URL and headers. *)
Definition request_is (method url : string) (header : list (string * string))
    (req : Request) : Prop :=
  Method req = method /\ URL req = url /\ Header req = header.

(** The headers of a request with a JSON body, and of one without. *)
Definition json_headers (tok : string) : list (string * string) :=
  [("Authorization", "Bearer " +:+ tok); ("Content-Type", "application/json")].

Definition bearer_header (tok : string) : list (string * string) :=
  [("Authorization", "Bearer " +:+ tok)].

(** No cluster, respectively policy, of the list has the name. *)
Definition no_cluster_named (name : string) (clusters : list Cluster) : Prop :=
  Forall (fun c => Cluster_Name c ≠ name) clusters.

Definition no_policy_named (name : string) (policies : list Policy) : Prop :=
  Forall (fun p => Policy_Name p ≠ name) policies.

(** The entry [GetSchemaResourceData] emits for a policy. *)
Definition schema_entry (policy : Policy) : gmap string any :=
  <["id" := AnyString (Policy_ID policy)]>
  (<["name" := AnyString (Policy_Name policy)]>
  (<["enforced" := AnyBool (Policy_Enforced policy)]> ∅)).

(** The keys a route request can hold. *)
Definition route_request_keys : list string :=
  ["name"; "namespaceId"; "from"; "allowSpdy";
   "enableGoogleCloudServerlessAuthentication"; "showErrorDetails"; "tlsSkipVerify";
   "tlsUpstreamAllowRenegotiation"; "kubernetesServiceAccountToken"; "to";
   "allowWebsockets"; "passIdentityHeaders"; "preserveHostHeader"; "policyIds";
   "prefix"; "prefixRewrite"].

(** ** Further sample environments *)

(** The API answers 201 to a policy creation with the policy [p9]. *)
Definition env_policy_created : Env :=
  sample_env (respond 201 "{}") (inl not_json) (inr (sample_policy "p9"))
    (inl not_json) (inl not_json).

(** The API answers 200 with a route document. *)
Definition env_route : Env :=
  sample_env (respond 200 "{}") (inr sample_route_document) (inl not_json)
    (inl not_json) (inl not_json).

Definition sample_cluster (id name : string) : Cluster :=
  mkCluster id name "ns-1" "example.com" (name +:+ ".example.com") "203.0.113.7"
    "2024-01-01T00:00:00Z" "2024-01-02T00:00:00Z".

(** Data-source decoders over an [Env]: the given clusters and policies, a
    token exchange that yields [jwt-1]. *)
Definition sample_data_env (E : Env) (clusters : list Cluster) (policies : list Policy)
    (pointers : list (option Policy)) : DataEnv :=
  {| base := E;
     Decode_Clusters := fun _ => inr clusters;
     Unmarshal_Policies := fun _ => inr policies;
     Decode_PolicyPointers := fun _ => inr pointers;
     Decode_IDToken := fun _ => inr "jwt-1";
     MarshalIndent_maps := fun _ => inr "[]" |}.

Definition sample_clusters : list Cluster :=
  [sample_cluster "c1" "alpha"; sample_cluster "c2" "beta"; sample_cluster "c3" "beta"].

Definition sample_policies : list Policy :=
  [sample_policy "p1"; sample_policy "p2"].

Definition env_data : DataEnv :=
  sample_data_env (env_orgs [mkOrganization "org-1"]) sample_clusters sample_policies
    (map Some sample_policies).

Definition sample_cluster_query (name : string) : ClusterDataSourceModel :=
  mkClusterDataSourceModel types.StringNull (types.StringValue name) types.StringNull
    types.StringNull types.StringNull types.StringNull types.StringNull types.StringNull.

Definition sample_policy_query (name : string) : PolicyDataSourceModel :=
  mkPolicyDataSourceModel types.StringNull (types.StringValue name)
    (types.StringValue "ns-1").

(** A helper with result [(data, err)] sends nothing and returns an error
    when [url] does not parse. *)
Definition refuses {A} (E : Env) (url : string) (h : IO (A * error)) : Prop :=
  forall log err,
    url_Parse E url = Some err ->
    exists data msg, h log = (Returns (data, Some msg), log).

(** The same for a delete helper, whose only result is the error. *)
Definition refuses_delete (E : Env) (url : string) (h : IO error) : Prop :=
  forall log err,
    url_Parse E url = Some err ->
    exists msg, h log = (Returns (Some msg), log).

(** A method answers an unexpected status by leaving the state as [prior]
    and reporting exactly one diagnostic. *)
Definition keeps_state_on_status {M} (E : Env) (expected : Z) (prior : option M)
    (m : IO (StateResponse M)) : Prop :=
  forall log,
    let '(out, log') := m log in
    forall resp,
      response_to E log log' = Some resp -> StatusCode resp ≠ expected ->
      exists d, out = Returns (mkStateResponse prior [d]).

(** A Delete method that received a response reports one diagnostic when the
    status is not 204 and none when it is. *)
Definition delete_reports_status (E : Env) (m : IO (list Diagnostic)) : Prop :=
  forall log,
    let '(out, log') := m log in
    forall resp,
      response_to E log log' = Some resp ->
      exists ds, out = Returns ds
                 /\ (ds = [] <-> StatusCode resp = StatusNoContent)
                 /\ (List.length ds <= 1)%nat.

(** An environment like [E] in which no URL parses. *)
Definition with_bad_urls (E : Env) : Env :=
  {| url_Parse := fun url => Some ("parse " +:+ url +:+ ": invalid control character in URL");
     client_Do := client_Do E;
     Marshal_map := Marshal_map E;
     Marshal_CreatePolicyRequest := Marshal_CreatePolicyRequest E;
     Marshal_UpdatePolicyRequest := Marshal_UpdatePolicyRequest E;
     Marshal_CreateClusterSettingsRequest := Marshal_CreateClusterSettingsRequest E;
     Marshal_UpdateClusterSettingsRequest := Marshal_UpdateClusterSettingsRequest E;
     Unmarshal_map := Unmarshal_map E;
     Unmarshal_Policy := Unmarshal_Policy E;
     Unmarshal_any := Unmarshal_any E;
     Decode_map := Decode_map E;
     Decode_Policy := Decode_Policy E;
     Decode_ClusterSettings := Decode_ClusterSettings E;
     Decode_Organizations := Decode_Organizations E;
     ListValueFrom := ListValueFrom E;
     ElementsAs := ElementsAs E |}.

(** An environment like [E] in which no route document marshals. *)
Definition with_bad_marshal (E : Env) : Env :=
  {| url_Parse := url_Parse E;
     client_Do := client_Do E;
     Marshal_map := fun _ => inl "json: unsupported value: NaN";
     Marshal_CreatePolicyRequest := Marshal_CreatePolicyRequest E;
     Marshal_UpdatePolicyRequest := Marshal_UpdatePolicyRequest E;
     Marshal_CreateClusterSettingsRequest := Marshal_CreateClusterSettingsRequest E;
     Marshal_UpdateClusterSettingsRequest := Marshal_UpdateClusterSettingsRequest E;
     Unmarshal_map := Unmarshal_map E;
     Unmarshal_Policy := Unmarshal_Policy E;
     Unmarshal_any := Unmarshal_any E;
     Decode_map := Decode_map E;
     Decode_Policy := Decode_Policy E;
     Decode_ClusterSettings := Decode_ClusterSettings E;
     Decode_Organizations := Decode_Organizations E;
     ListValueFrom := ListValueFrom E;
     ElementsAs := ElementsAs E |}.

(** A rendering of a request document, one [key=value] per key in the order
    of the map; it stands for [json.Marshal] where a statement needs a body
    that depends on the document. *)
Definition render_any (v : any) : string :=
  match v with
  | AnyString s => s
  | AnyBool b => if b then "true" else "false"
  | AnyStrings (Some l) => "[" +:+ String.concat "," l +:+ "]"
  | _ => "null"
  end.

Definition render (doc : gmap string any) : string :=
  String.concat ";" (map (fun kv => kv.1 +:+ "=" +:+ render_any kv.2) (map_to_list doc)).

(** An environment like [E] in which a route document marshals to its
    rendering. *)
Definition with_rendering (E : Env) : Env :=
  {| url_Parse := url_Parse E;
     client_Do := client_Do E;
     Marshal_map := fun doc => inr (render doc);
     Marshal_CreatePolicyRequest := Marshal_CreatePolicyRequest E;
     Marshal_UpdatePolicyRequest := Marshal_UpdatePolicyRequest E;
     Marshal_CreateClusterSettingsRequest := Marshal_CreateClusterSettingsRequest E;
     Marshal_UpdateClusterSettingsRequest := Marshal_UpdateClusterSettingsRequest E;
     Unmarshal_map := Unmarshal_map E;
     Unmarshal_Policy := Unmarshal_Policy E;
     Unmarshal_any := Unmarshal_any E;
     Decode_map := Decode_map E;
     Decode_Policy := Decode_Policy E;
     Decode_ClusterSettings := Decode_ClusterSettings E;
     Decode_Organizations := Decode_Organizations E;
     ListValueFrom := ListValueFrom E;
     ElementsAs := ElementsAs E |}.

(** A plan for the route [r1]: two upstreams, one policy, a prefix, and
    websockets allowed. *)
Definition sample_route_plan : RouteResourceModel :=
  {| ID := types.StringValue "r1";
     Name := types.StringValue "verify";
     NamespaceID := types.StringValue "ns-1";
     From := types.StringValue "https://verify.example.com";
     To := types.ListValue [types.StringValue "http://10.0.0.1:8000";
                            types.StringValue "http://10.0.0.2:8000"];
     AllowSpdy := types.BoolValue false;
     AllowWebsockets := types.BoolValue true;
     EnableGoogleCloudServerlessAuthentication := types.BoolValue false;
     PassIdentityHeaders := types.BoolNull;
     PreserveHostHeader := types.BoolValue false;
     ShowErrorDetails := types.BoolValue true;
     TLSSkipVerify := types.BoolValue false;
     TLSUpstreamAllowRenegotiation := types.BoolValue false;
     PolicyIDs := types.ListValue [types.StringValue "p1"];
     Prefix := types.StringValue "/api";
     PrefixRewrite := types.StringNull;
     KubernetesServiceAccountToken := types.StringNull |}.

(** An environment like [E] in which no text is JSON for [json.Unmarshal]
    into an [interface{}]. *)
Definition with_bad_ppl (E : Env) : Env :=
  {| url_Parse := url_Parse E;
     client_Do := client_Do E;
     Marshal_map := Marshal_map E;
     Marshal_CreatePolicyRequest := Marshal_CreatePolicyRequest E;
     Marshal_UpdatePolicyRequest := Marshal_UpdatePolicyRequest E;
     Marshal_CreateClusterSettingsRequest := Marshal_CreateClusterSettingsRequest E;
     Marshal_UpdateClusterSettingsRequest := Marshal_UpdateClusterSettingsRequest E;
     Unmarshal_map := Unmarshal_map E;
     Unmarshal_Policy := Unmarshal_Policy E;
     Unmarshal_any := fun _ => inl not_json;
     Decode_map := Decode_map E;
     Decode_Policy := Decode_Policy E;
     Decode_ClusterSettings := Decode_ClusterSettings E;
     Decode_Organizations := Decode_Organizations E;
     ListValueFrom := ListValueFrom E;
     ElementsAs := ElementsAs E |}.

(** * Properties *)

(** ** Running a helper *)

(** Unfolds the plumbing of [IO] and splits on every test a helper makes. *)
Ltac io_unfold :=
  unfold mbind, mret, IO_bind, IO_ret, Do, lift, NewRequestWithContext, ReadAll in *.

Ltac io_cases := io_unfold; simpl; repeat (case_match; simpl in *; simplify_eq); simpl.

Lemma sent_none (log : list Request) : sent log log = [].
Proof. unfold sent. by rewrite drop_all. Qed.

Lemma sent_one (log : list Request) req : sent log (log ++ [req]) = [req].
Proof. unfold sent. by rewrite drop_app_length. Qed.

Lemma response_to_none (E : Env) log : response_to E log log = None.
Proof. unfold response_to. by rewrite sent_none. Qed.

Lemma response_to_one (E : Env) log req :
  response_to E log (log ++ [req])
  = match client_Do E log req with inr resp => Some resp | inl _ => None end.
Proof. unfold response_to. by rewrite sent_one. Qed.

Lemma status_eqb (n m : Z) : negb (n =? m)%Z = false -> n = m.
Proof. intros H. apply negb_false_iff in H. by apply Z.eqb_eq. Qed.

(** Turns the tests on a status code left by [io_cases] into equations. *)
Ltac status_facts :=
  repeat match goal with
         | H : negb (_ =? _)%Z = false |- _ => apply status_eqb in H
         | H : negb (_ =? _)%Z = true |- _ =>
             apply negb_true_iff in H; apply Z.eqb_neq in H
         | H : (_ =? _)%Z = true |- _ => apply Z.eqb_eq in H
         | H : (_ =? _)%Z = false |- _ => apply Z.eqb_neq in H
         end.

Lemma bind_run {A B} (m : IO A) (f : A -> IO B) (log : list Request) :
  (m ≫= f) log
  = match m log with
    | (Returns a, log') => f a log'
    | (Panics msg, log') => (Panics msg, log')
    end.
Proof. reflexivity. Qed.

Lemma sends_only_cases {A} (P : Request -> Prop) (m : IO A) (log : list Request) :
  ((m log).2 = log \/ exists req, (m log).2 = (log ++ [req])%list /\ P req) ->
  Forall P (sent log (m log).2).
Proof.
  intros [->|(req & -> & Hreq)]; [rewrite sent_none | rewrite sent_one]; by repeat constructor.
Qed.

Ltac unfold_helpers :=
  unfold createRoute, readRoute, updateRoute, deleteRoute,
    createPolicy, getPolicy, updatePolicy, deletePolicy,
    createClusterSettings, getClusterSettings, updateClusterSettings,
    deleteClusterSettings.

Ltac unfold_checks :=
  unfold rejected_by_status, rejected_after_reading, updatePolicy_rejected, failure,
    status_text, status_text_with_body, no_body, unmarshals, decodes.

(** Runs a helper through every test it makes; where it sends a request,
    names the request and brings the answer and the checks on it into the
    goal. *)
Ltac run_helper :=
  intros log; unfold_helpers; unfold unsendable; io_unfold; simpl;
  repeat (case_match; simpl in *; simplify_eq); simpl;
  rewrite ?sent_one;
  try (eexists; split; [reflexivity|]);
  repeat match goal with
         | H : negb _ = true |- _ => apply negb_true_iff in H
         | H : negb _ = false |- _ => apply negb_false_iff in H
         end;
  repeat (unfold_checks; simpl;
          repeat match goal with
                 | H : ?x = _ |- context [?x] => rewrite H; simpl
                 end).

Ltac error_text :=
  first [ by eexists _, _ | by exists EmptyString; eexists
        | by eexists | by exists EmptyString ].

(** ** One request per helper, and the first error

    The parameters of [stops_at_first_error] name, for each helper, the
    document it marshals, the URL it asks, and the checks it makes on the
    response, in the order of the source. *)

(** C7: every CRUD helper of the three resources sends at most one request
    and returns at the first step that fails.  When the document does not
    marshal or the URL is refused it sends nothing and returns that error;
    otherwise it sends exactly one request, and returns the error of the
    transport, or of the first check that the response fails (body read,
    status, decoding, in the order of the helper); it returns no error when
    every step succeeds.  The error returned ends with the text of the step
    that failed. *)
Theorem helpers_stop_at_first_error (E : Env) :
  (forall r plan,
      at_most_one_request (createRoute E r plan)
      /\ stops_at_first_error E
           (unsendable E (Some (Marshal_map E (createRouteRequest E plan)))
              (routes_url (route_organizationID r)))
           (rejected_after_reading StatusCreated (Unmarshal_map E))
           (createRoute E r plan))
  /\ (forall r id,
      at_most_one_request (readRoute E r id)
      /\ stops_at_first_error E
           (unsendable E None (route_url (route_organizationID r) id))
           (rejected_by_status StatusOK status_text (Decode_map E))
           (readRoute E r id))
  /\ (forall r plan,
      at_most_one_request (updateRoute E r plan)
      /\ stops_at_first_error E
           (unsendable E (Some (Marshal_map E (updateRouteRequest E plan)))
              (route_url (route_organizationID r) (types.ValueString (ID plan))))
           (rejected_after_reading StatusOK (Unmarshal_map E))
           (updateRoute E r plan))
  /\ (forall r id,
      at_most_one_request (deleteRoute E r id)
      /\ delete_stops_at_first_error E
           (unsendable E None (route_url (route_organizationID r) id))
           (rejected_by_status StatusNoContent status_text no_body)
           (deleteRoute E r id))
  /\ (forall r req,
      at_most_one_request (createPolicy E r req)
      /\ stops_at_first_error E
           (unsendable E (Some (Marshal_CreatePolicyRequest E req))
              (policies_url (policy_organizationID r)))
           (rejected_after_reading StatusCreated (Unmarshal_Policy E))
           (createPolicy E r req))
  /\ (forall r id,
      at_most_one_request (getPolicy E r id)
      /\ stops_at_first_error E
           (unsendable E None (policy_url (policy_organizationID r) id))
           (rejected_by_status StatusOK status_text (Decode_Policy E))
           (getPolicy E r id))
  /\ (forall r id req,
      at_most_one_request (updatePolicy E r id req)
      /\ stops_at_first_error E
           (unsendable E (Some (Marshal_UpdatePolicyRequest E req))
              (policy_url (policy_organizationID r) id))
           (updatePolicy_rejected E id)
           (updatePolicy E r id req))
  /\ (forall r id,
      at_most_one_request (deletePolicy E r id)
      /\ delete_stops_at_first_error E
           (unsendable E None (policy_url (policy_organizationID r) id))
           (rejected_by_status StatusNoContent status_text no_body)
           (deletePolicy E r id))
  /\ (forall r req,
      at_most_one_request (createClusterSettings E r req)
      /\ stops_at_first_error E
           (unsendable E (Some (Marshal_CreateClusterSettingsRequest E req))
              (settings_url (settings_organizationID r) (ccs_ID req)))
           (rejected_by_status StatusCreated status_text_with_body
              (Decode_ClusterSettings E))
           (createClusterSettings E r req))
  /\ (forall r id,
      at_most_one_request (getClusterSettings E r id)
      /\ stops_at_first_error E
           (unsendable E None (settings_url (settings_organizationID r) id))
           (rejected_by_status StatusOK status_text_with_body (Decode_ClusterSettings E))
           (getClusterSettings E r id))
  /\ (forall r id req,
      at_most_one_request (updateClusterSettings E r id req)
      /\ stops_at_first_error E
           (unsendable E (Some (Marshal_UpdateClusterSettingsRequest E req))
              (settings_url (settings_organizationID r) id))
           (rejected_by_status StatusOK status_text_with_body (Decode_ClusterSettings E))
           (updateClusterSettings E r id req))
  /\ (forall r id,
      at_most_one_request (deleteClusterSettings E r id)
      /\ delete_stops_at_first_error E
           (unsendable E None (settings_url (settings_organizationID r) id))
           (rejected_by_status StatusNoContent status_text_with_body no_body)
           (deleteClusterSettings E r id)).
Proof.
  split_and!; intros; (split; [intros log; unfold_helpers; io_cases; eauto|]).
  all: run_helper.
  all: try (split; [reflexivity|]).
  all: try error_text.
  all: try (intros ? ? ?; simplify_eq).
Qed.

(** On [with_bad_marshal env_not_found] the route document does not marshal:
    [createRoute] returns that error and sends nothing.  On
    [env_broken_transport] the policy read is sent and the error of the
    transport comes back. *)
Lemma helpers_stop_at_first_error_witness :
  (exists pre data,
      createRoute (with_bad_marshal env_not_found) sample_route_resource sample_route_plan []
      = (Returns (data, Some (pre +:+ "json: unsupported value: NaN")), []))
  /\ (exists req pre data,
        getPolicy env_broken_transport sample_policy_resource "p1" []
        = (Returns (data, Some (pre +:+ "Get " +:+ dquote
                   +:+ "https://console.pomerium.app/api/v0/organizations/org-1/policies/p1"
                   +:+ dquote +:+ ": policy not found")), [req])).
Proof.
  pose proof (proj1 (helpers_stop_at_first_error (with_bad_marshal env_not_found)))
    as Hcreate.
  destruct (helpers_stop_at_first_error env_broken_transport)
    as (_ & _ & _ & _ & _ & Hget & _).
  split.
  - pose proof (proj2 (Hcreate sample_route_resource sample_route_plan) []) as Hrun.
    destruct (createRoute (with_bad_marshal env_not_found) sample_route_resource
                sample_route_plan []) as [out log'].
    simpl in Hrun. destruct Hrun as (-> & pre & data & ->).
    by exists pre, data.
  - pose proof (proj2 (Hget sample_policy_resource "p1") []) as Hrun.
    destruct (getPolicy env_broken_transport sample_policy_resource "p1" [])
      as [out log'].
    simpl in Hrun. destruct Hrun as (req & -> & pre & data & ->).
    by exists req, pre, data.
Defined.

(** ** When a helper fails *)

(** C2, as the code has it: every CRUD helper returns an error whenever the
    response status is not the one expected for its verb (201 for create, 200
    for read and update, 204 for delete), and returns no resource data with
    an error.  The status is not the only cause: a helper returns an error
    exactly when the request cannot be built (the document does not marshal
    or the URL is refused), the transport fails, the status is not the
    expected one, or, for create, read and update, the body cannot be read
    or decoded.  A delete helper that received a response returns an error
    exactly when the status is not 204. *)
Theorem helpers_fail_exactly_when (E : Env) :
  (forall r plan,
      fails_exactly_when E
        (unsendable E (Some (Marshal_map E (createRouteRequest E plan)))
           (routes_url (route_organizationID r)))
        StatusCreated (unmarshals (Unmarshal_map E)) RouteResourceModel_zero
        (createRoute E r plan))
  /\ (forall r id,
      fails_exactly_when E (unsendable E None (route_url (route_organizationID r) id))
        StatusOK (decodes (Decode_map E)) None (readRoute E r id))
  /\ (forall r plan,
      fails_exactly_when E
        (unsendable E (Some (Marshal_map E (updateRouteRequest E plan)))
           (route_url (route_organizationID r) (types.ValueString (ID plan))))
        StatusOK (unmarshals (Unmarshal_map E)) RouteResourceModel_zero
        (updateRoute E r plan))
  /\ (forall r id,
      delete_fails_exactly_when E
        (unsendable E None (route_url (route_organizationID r) id)) (deleteRoute E r id))
  /\ (forall r req,
      fails_exactly_when E
        (unsendable E (Some (Marshal_CreatePolicyRequest E req))
           (policies_url (policy_organizationID r)))
        StatusCreated (unmarshals (Unmarshal_Policy E)) None (createPolicy E r req))
  /\ (forall r id,
      fails_exactly_when E (unsendable E None (policy_url (policy_organizationID r) id))
        StatusOK (decodes (Decode_Policy E)) None (getPolicy E r id))
  /\ (forall r id req,
      fails_exactly_when E
        (unsendable E (Some (Marshal_UpdatePolicyRequest E req))
           (policy_url (policy_organizationID r) id))
        StatusOK (unmarshals (Unmarshal_Policy E)) None (updatePolicy E r id req))
  /\ (forall r id,
      delete_fails_exactly_when E
        (unsendable E None (policy_url (policy_organizationID r) id)) (deletePolicy E r id))
  /\ (forall r req,
      fails_exactly_when E
        (unsendable E (Some (Marshal_CreateClusterSettingsRequest E req))
           (settings_url (settings_organizationID r) (ccs_ID req)))
        StatusCreated (decodes (Decode_ClusterSettings E)) None
        (createClusterSettings E r req))
  /\ (forall r id,
      fails_exactly_when E (unsendable E None (settings_url (settings_organizationID r) id))
        StatusOK (decodes (Decode_ClusterSettings E)) None (getClusterSettings E r id))
  /\ (forall r id req,
      fails_exactly_when E
        (unsendable E (Some (Marshal_UpdateClusterSettingsRequest E req))
           (settings_url (settings_organizationID r) id))
        StatusOK (decodes (Decode_ClusterSettings E)) None
        (updateClusterSettings E r id req))
  /\ (forall r id,
      delete_fails_exactly_when E
        (unsendable E None (settings_url (settings_organizationID r) id))
        (deleteClusterSettings E r id)).
Proof.
  split_and!; intros.
  all: intros log; unfold_helpers; unfold unsendable; io_unfold; simpl;
    repeat (case_match; simpl in *; simplify_eq); simpl;
    rewrite ?sent_one, ?sent_none.
  all: try lazymatch goal with
           | |- (forall _ _, _ -> _) /\ _ => split; [intros ? ? ?; by simplify_eq|]
           end.
  all: try lazymatch goal with
           | |- [] = [] /\ _ => split; [reflexivity|]
           end.
  all: try (eexists; split; [reflexivity|]).
  all: repeat match goal with
              | H : negb _ = true |- _ => apply negb_true_iff in H
              | H : negb _ = false |- _ => apply negb_false_iff in H
              end.
  all: repeat (unfold_checks; simpl;
               repeat match goal with
                      | H : ?x = _ |- context [?x] => rewrite H; simpl
                      end);
    rewrite ?andb_false_r.
  all: try by eexists.
  all: try (intros ? ? ?; by simplify_eq).
  all: try (eexists; split; [reflexivity|]; split; intros; status_facts; by simplify_eq).
  status_facts.
  match goal with H : StatusCode _ = _ |- _ => rewrite H end.
  simpl. by eexists.
Qed.

(** On [env_not_found] the route read gets a 404 and returns the error with
    a nil map; on [env_garbled_route] it gets a 200 whose body does not
    decode and returns an error as well. *)
Lemma helpers_fail_exactly_when_witness :
  readRoute env_not_found sample_route_resource "r1" []
  = (Returns (None, Some "unexpected status code: 404"),
     [mkRequest "GET" "https://console.pomerium.app/api/v0/organizations/org-1/routes/r1"
        [("Authorization", "Bearer jwt")] None])
  /\ fails_exactly_when env_not_found None StatusOK (decodes (Decode_map env_not_found))
       None (readRoute env_not_found sample_route_resource "r1")
  /\ exists msg,
       (readRoute env_garbled_route sample_route_resource "r1" []).1
       = Returns (None, Some msg).
Proof.
  split; [vm_compute; reflexivity|]. split.
  - exact (proj1 (proj2 (helpers_fail_exactly_when env_not_found))
             sample_route_resource "r1").
  - pose proof (proj1 (proj2 (helpers_fail_exactly_when env_garbled_route))
                  sample_route_resource "r1" []) as H.
    destruct (readRoute env_garbled_route sample_route_resource "r1" [])
      as [out log'] eqn:Hrun.
    destruct H as [_ (req & Hsent & Hout)].
    assert (Hlog : log' = [mkRequest "GET"
                             "https://console.pomerium.app/api/v0/organizations/org-1/routes/r1"
                             [("Authorization", "Bearer jwt")] None]).
    { apply (f_equal snd) in Hrun. simpl in Hrun. rewrite <- Hrun. vm_compute. reflexivity. }
    subst log'. vm_compute in Hsent. simplify_eq. exact Hout.
Defined.

(** C2 as stated fails: on [env_garbled_route] the route read receives status
    200, the status it expects, and returns an error all the same, because
    the body does not decode. *)
Lemma error_without_status_mismatch :
  readRoute env_garbled_route sample_route_resource "r1" []
  = (Returns (None, Some ("error decoding response: " +:+ not_json)),
     [mkRequest "GET" "https://console.pomerium.app/api/v0/organizations/org-1/routes/r1"
        [("Authorization", "Bearer jwt")] None])
  /\ ~ error_iff_status_differs env_garbled_route StatusOK
        (readRoute env_garbled_route sample_route_resource "r1").
Proof.
  split; [vm_compute; reflexivity|].
  intros H. specialize (H []).
  destruct (H (mkResponse 200 (mkBody "oops" None)) None
              (Some ("error decoding response: " +:+ not_json))) as [Hne _];
    [vm_compute; reflexivity | vm_compute; reflexivity |].
  apply Hne; [discriminate | reflexivity].
Qed.

(** ** Request maps of routes *)

Lemma set_if_lookup_ne cond key value (req : gmap string any) k :
  key ≠ k -> set_if cond key value req !! k = req !! k.
Proof. intros Hne. unfold set_if. destruct cond; [by rewrite lookup_insert_ne|done]. Qed.

Lemma set_if_lookup_eq cond key value (req : gmap string any) :
  set_if cond key value req !! key = if cond then Some value else req !! key.
Proof. unfold set_if. destruct cond; [by rewrite lookup_insert_eq|done]. Qed.

(** Looks [key] up in the map of [createRouteRequest]: the literal the map
    starts from answers [baseval], the conditional assignments are crossed
    one by one. *)
Ltac route_lookup key baseval :=
  unfold createRouteRequest; cbv zeta;
  match goal with
  | |- context [set_if _ "to" _ ?b] =>
      let Hb := fresh "Hb" in
      assert (Hb : b !! key = baseval) by (vm_compute; reflexivity);
      revert Hb; generalize b; intros base Hb;
      repeat first [ rewrite set_if_lookup_eq | rewrite set_if_lookup_ne by done ];
      rewrite Hb
  end.

Lemma lookup_kubernetesServiceAccountToken (E : Env) (model : RouteResourceModel) :
  createRouteRequest E model !! "kubernetesServiceAccountToken"
  = Some (AnyString (types.ValueString (KubernetesServiceAccountToken model))).
Proof.
  route_lookup "kubernetesServiceAccountToken"
    (Some (AnyString (types.ValueString (KubernetesServiceAccountToken model)))).
  by destruct (negb _).
Qed.

Lemma lookup_prefix (E : Env) (model : RouteResourceModel) :
  createRouteRequest E model !! "prefix"
  = if types.IsNull (Prefix model) then None
    else Some (AnyString (types.ValueString (Prefix model))).
Proof. route_lookup "prefix" (@None any). by destruct (types.IsNull _). Qed.

Lemma lookup_prefixRewrite (E : Env) (model : RouteResourceModel) :
  createRouteRequest E model !! "prefixRewrite"
  = if types.IsNull (PrefixRewrite model) then None
    else Some (AnyString (types.ValueString (PrefixRewrite model))).
Proof. route_lookup "prefixRewrite" (@None any). by destruct (types.IsNull _). Qed.

Lemma lookup_to (E : Env) (model : RouteResourceModel) :
  createRouteRequest E model !! "to"
  = if types.ListIsNull (To model) then None
    else Some (AnyStrings (ElementsAs E (To model))).
Proof. route_lookup "to" (@None any). by destruct (types.ListIsNull _). Qed.

Lemma lookup_policyIds (E : Env) (model : RouteResourceModel) :
  createRouteRequest E model !! "policyIds"
  = if types.ListIsNull (PolicyIDs model) then None
    else Some (AnyStrings (ElementsAs E (PolicyIDs model))).
Proof. route_lookup "policyIds" (@None any). by destruct (types.ListIsNull _). Qed.

Lemma lookup_allowWebsockets (E : Env) (model : RouteResourceModel) :
  createRouteRequest E model !! "allowWebsockets"
  = if types.BoolIsNull (AllowWebsockets model) then None
    else Some (AnyBool (types.ValueBool (AllowWebsockets model))).
Proof. route_lookup "allowWebsockets" (@None any). by destruct (types.BoolIsNull _). Qed.

Lemma lookup_passIdentityHeaders (E : Env) (model : RouteResourceModel) :
  createRouteRequest E model !! "passIdentityHeaders"
  = if types.BoolIsNull (PassIdentityHeaders model) then None
    else Some (AnyBool (types.ValueBool (PassIdentityHeaders model))).
Proof. route_lookup "passIdentityHeaders" (@None any). by destruct (types.BoolIsNull _). Qed.

Lemma lookup_preserveHostHeader (E : Env) (model : RouteResourceModel) :
  createRouteRequest E model !! "preserveHostHeader"
  = if types.BoolIsNull (PreserveHostHeader model) then None
    else Some (AnyBool (types.ValueBool (PreserveHostHeader model))).
Proof. route_lookup "preserveHostHeader" (@None any). by destruct (types.BoolIsNull _). Qed.

Lemma lookup_name (E : Env) (model : RouteResourceModel) :
  createRouteRequest E model !! "name" = Some (AnyString (types.ValueString (Name model))).
Proof. route_lookup "name" (Some (AnyString (types.ValueString (Name model)))). done. Qed.

Lemma lookup_namespaceId (E : Env) (model : RouteResourceModel) :
  createRouteRequest E model !! "namespaceId"
  = Some (AnyString (types.ValueString (NamespaceID model))).
Proof.
  route_lookup "namespaceId" (Some (AnyString (types.ValueString (NamespaceID model)))). done.
Qed.

Lemma lookup_from (E : Env) (model : RouteResourceModel) :
  createRouteRequest E model !! "from" = Some (AnyString (types.ValueString (From model))).
Proof. route_lookup "from" (Some (AnyString (types.ValueString (From model)))). done. Qed.

Lemma lookup_allowSpdy (E : Env) (model : RouteResourceModel) :
  createRouteRequest E model !! "allowSpdy"
  = Some (AnyBool (types.ValueBool (AllowSpdy model))).
Proof. route_lookup "allowSpdy" (Some (AnyBool (types.ValueBool (AllowSpdy model)))). done. Qed.

Lemma lookup_enableGoogle (E : Env) (model : RouteResourceModel) :
  createRouteRequest E model !! "enableGoogleCloudServerlessAuthentication"
  = Some (AnyBool (types.ValueBool (EnableGoogleCloudServerlessAuthentication model))).
Proof.
  route_lookup "enableGoogleCloudServerlessAuthentication"
    (Some (AnyBool (types.ValueBool (EnableGoogleCloudServerlessAuthentication model)))).
  done.
Qed.

Lemma lookup_showErrorDetails (E : Env) (model : RouteResourceModel) :
  createRouteRequest E model !! "showErrorDetails"
  = Some (AnyBool (types.ValueBool (ShowErrorDetails model))).
Proof.
  route_lookup "showErrorDetails" (Some (AnyBool (types.ValueBool (ShowErrorDetails model)))).
  done.
Qed.

Lemma lookup_tlsSkipVerify (E : Env) (model : RouteResourceModel) :
  createRouteRequest E model !! "tlsSkipVerify"
  = Some (AnyBool (types.ValueBool (TLSSkipVerify model))).
Proof.
  route_lookup "tlsSkipVerify" (Some (AnyBool (types.ValueBool (TLSSkipVerify model)))). done.
Qed.

Lemma lookup_tlsUpstream (E : Env) (model : RouteResourceModel) :
  createRouteRequest E model !! "tlsUpstreamAllowRenegotiation"
  = Some (AnyBool (types.ValueBool (TLSUpstreamAllowRenegotiation model))).
Proof.
  route_lookup "tlsUpstreamAllowRenegotiation"
    (Some (AnyBool (types.ValueBool (TLSUpstreamAllowRenegotiation model)))).
  done.
Qed.

Lemma lookup_other_key (E : Env) (model : RouteResourceModel) (k : string) :
  k ∉ route_request_keys -> createRouteRequest E model !! k = None.
Proof.
  intros Hk. unfold route_request_keys in Hk.
  repeat (apply not_elem_of_cons in Hk as [? Hk]).
  unfold createRouteRequest; cbv zeta.
  match goal with
  | |- context [set_if _ "to" _ ?b] =>
      assert (Hb : b !! k = None)
        by (rewrite !lookup_insert_ne by done; apply lookup_empty);
      revert Hb; generalize b; intros base Hb
  end.
  rewrite !set_if_lookup_ne by done. exact Hb.
Qed.

(** C9: the request map of [createRouteRequest] always has the key
    [kubernetesServiceAccountToken], holding the empty string when the model
    field is null; [prefix], [prefixRewrite], the lists [to] and [policyIds]
    and the booleans [allowWebsockets], [passIdentityHeaders] and
    [preserveHostHeader] are absent exactly when null in the model, and hold
    the model's value otherwise. *)
Theorem createRouteRequest_optional_keys (E : Env) (model : RouteResourceModel) :
  let req := createRouteRequest E model in
  req !! "kubernetesServiceAccountToken"
    = Some (AnyString (if types.IsNull (KubernetesServiceAccountToken model) then ""
                       else types.ValueString (KubernetesServiceAccountToken model)))
  /\ (req !! "prefix" = None <-> types.IsNull (Prefix model) = true)
  /\ (req !! "prefixRewrite" = None <-> types.IsNull (PrefixRewrite model) = true)
  /\ (req !! "to" = None <-> types.ListIsNull (To model) = true)
  /\ (req !! "policyIds" = None <-> types.ListIsNull (PolicyIDs model) = true)
  /\ (req !! "allowWebsockets" = None <-> types.BoolIsNull (AllowWebsockets model) = true)
  /\ (req !! "passIdentityHeaders" = None
      <-> types.BoolIsNull (PassIdentityHeaders model) = true)
  /\ (req !! "preserveHostHeader" = None
      <-> types.BoolIsNull (PreserveHostHeader model) = true).
Proof.
  cbv zeta.
  rewrite lookup_kubernetesServiceAccountToken, lookup_prefix, lookup_prefixRewrite,
    lookup_to, lookup_policyIds, lookup_allowWebsockets, lookup_passIdentityHeaders,
    lookup_preserveHostHeader.
  split; [by destruct (KubernetesServiceAccountToken model)|].
  repeat split; intros H;
    repeat match goal with
           | H : context [if ?b then _ else _] |- _ => destruct b eqn:?
           | |- context [if ?b then _ else _] => destruct b eqn:?
           end; congruence.
Qed.

(** ** Mapping API documents to models *)

(** C6: [updatePolicyResourceModel] stores the empty string for name,
    description, explanation and remediation when the API value is the
    string null, and the API value itself otherwise. *)
Theorem updatePolicyResourceModel_null_text (model : PolicyResourceModel) (policy : Policy) :
  let norm (s : string) := if decide (s = "null") then "" else s in
  let model' := updatePolicyResourceModel model policy in
  pm_Name model' = types.StringValue (norm (Policy_Name policy))
  /\ pm_Description model' = types.StringValue (norm (Policy_Description policy))
  /\ pm_Explanation model' = types.StringValue (norm (Policy_Explanation policy))
  /\ pm_Remediation model' = types.StringValue (norm (Policy_Remediation policy))
  /\ forall s, stringOrEmpty s = norm s.
Proof.
  assert (Hs : forall s, stringOrEmpty s = if decide (s = "null") then "" else s).
  { intros s. unfold stringOrEmpty.
    destruct (String.eqb_spec s "null"); case_decide; congruence. }
  cbv zeta. simpl. rewrite !Hs. repeat split. exact Hs.
Qed.

(** ** The document a route update sends *)

(** C3: the document of a route update is the document of a create of the
    same model, and it is the full document: whatever the prior state, it
    holds the model's name, namespace, source, the five booleans of the
    literal and the service-account token, each optional attribute that is
    not null with the model's value, and no other key.  When the URLs parse,
    [updateRoute] sends in its PUT the marshalled document, the very body
    [createRoute] sends in its POST; when the document does not marshal
    neither sends anything. *)
Theorem updateRouteRequest_is_createRouteRequest (E : Env) (model : RouteResourceModel) :
  let doc := updateRouteRequest E model in
  doc = createRouteRequest E model
  /\ doc !! "name" = Some (AnyString (types.ValueString (Name model)))
  /\ doc !! "namespaceId" = Some (AnyString (types.ValueString (NamespaceID model)))
  /\ doc !! "from" = Some (AnyString (types.ValueString (From model)))
  /\ doc !! "allowSpdy" = Some (AnyBool (types.ValueBool (AllowSpdy model)))
  /\ doc !! "enableGoogleCloudServerlessAuthentication"
     = Some (AnyBool (types.ValueBool (EnableGoogleCloudServerlessAuthentication model)))
  /\ doc !! "showErrorDetails" = Some (AnyBool (types.ValueBool (ShowErrorDetails model)))
  /\ doc !! "tlsSkipVerify" = Some (AnyBool (types.ValueBool (TLSSkipVerify model)))
  /\ doc !! "tlsUpstreamAllowRenegotiation"
     = Some (AnyBool (types.ValueBool (TLSUpstreamAllowRenegotiation model)))
  /\ doc !! "kubernetesServiceAccountToken"
     = Some (AnyString (types.ValueString (KubernetesServiceAccountToken model)))
  /\ doc !! "to" = (if types.ListIsNull (To model) then None
                    else Some (AnyStrings (ElementsAs E (To model))))
  /\ doc !! "policyIds" = (if types.ListIsNull (PolicyIDs model) then None
                           else Some (AnyStrings (ElementsAs E (PolicyIDs model))))
  /\ doc !! "allowWebsockets"
     = (if types.BoolIsNull (AllowWebsockets model) then None
        else Some (AnyBool (types.ValueBool (AllowWebsockets model))))
  /\ doc !! "passIdentityHeaders"
     = (if types.BoolIsNull (PassIdentityHeaders model) then None
        else Some (AnyBool (types.ValueBool (PassIdentityHeaders model))))
  /\ doc !! "preserveHostHeader"
     = (if types.BoolIsNull (PreserveHostHeader model) then None
        else Some (AnyBool (types.ValueBool (PreserveHostHeader model))))
  /\ doc !! "prefix" = (if types.IsNull (Prefix model) then None
                        else Some (AnyString (types.ValueString (Prefix model))))
  /\ doc !! "prefixRewrite"
     = (if types.IsNull (PrefixRewrite model) then None
        else Some (AnyString (types.ValueString (PrefixRewrite model))))
  /\ (forall k, k ∉ route_request_keys -> doc !! k = None)
  /\ forall r log,
       url_Parse E (route_url (route_organizationID r) (types.ValueString (ID model))) = None ->
       url_Parse E (routes_url (route_organizationID r)) = None ->
       match Marshal_map E doc with
       | inr body =>
           map (fun req => (Method req, Body req)) (sent log (updateRoute E r model log).2)
           = [("PUT", Some body)]
           /\ map (fun req => (Method req, Body req)) (sent log (createRoute E r model log).2)
              = [("POST", Some body)]
       | inl _ =>
           (updateRoute E r model log).2 = log /\ (createRoute E r model log).2 = log
       end.
Proof.
  cbv zeta. unfold updateRouteRequest.
  split_and!;
    [ reflexivity | apply lookup_name | apply lookup_namespaceId | apply lookup_from
    | apply lookup_allowSpdy | apply lookup_enableGoogle | apply lookup_showErrorDetails
    | apply lookup_tlsSkipVerify | apply lookup_tlsUpstream
    | apply lookup_kubernetesServiceAccountToken | apply lookup_to | apply lookup_policyIds
    | apply lookup_allowWebsockets | apply lookup_passIdentityHeaders
    | apply lookup_preserveHostHeader | apply lookup_prefix | apply lookup_prefixRewrite
    | apply lookup_other_key | ].
  intros r log Hput Hpost.
  unfold updateRoute, createRoute, updateRouteRequest.
  destruct (Marshal_map E (createRouteRequest E model)) as [err|body]; [by split|].
  unfold NewRequestWithContext. rewrite Hput, Hpost.
  split; io_cases; by rewrite sent_one.
Qed.

(** The plan [sample_route_plan] under a marshaller that renders the
    document: the PUT and the POST carry the same body, which holds the
    plan's upstreams, policy and prefix. *)
Lemma updateRouteRequest_is_createRouteRequest_witness :
  let E := with_rendering env_not_found in
  let body :=
    "kubernetesServiceAccountToken=;showErrorDetails=true;"
    +:+ "enableGoogleCloudServerlessAuthentication=false;allowWebsockets=true;"
    +:+ "allowSpdy=false;namespaceId=ns-1;name=verify;from=https://verify.example.com;"
    +:+ "to=[http://10.0.0.1:8000,http://10.0.0.2:8000];tlsSkipVerify=false;"
    +:+ "tlsUpstreamAllowRenegotiation=false;policyIds=[p1];preserveHostHeader=false;"
    +:+ "prefix=/api" in
  map (fun req => (Method req, Body req))
      (updateRoute E sample_route_resource sample_route_plan []).2
  = [("PUT", Some body)]
  /\ map (fun req => (Method req, Body req))
         (createRoute E sample_route_resource sample_route_plan []).2
     = [("POST", Some body)]
  /\ updateRouteRequest E sample_route_plan !! "to"
     = Some (AnyStrings (Some ["http://10.0.0.1:8000"; "http://10.0.0.2:8000"])).
Proof.
  cbv zeta.
  destruct (updateRouteRequest_is_createRouteRequest (with_rendering env_not_found)
              sample_route_plan)
    as (_ & _ & _ & _ & _ & _ & _ & _ & _ & _ & Hto & _ & _ & _ & _ & _ & _ & _ & Hsend).
  destruct (Hsend sample_route_resource [] eq_refl eq_refl) as [Hput Hpost].
  split_and!.
  - vm_compute in Hput. vm_compute. exact Hput.
  - vm_compute in Hpost. vm_compute. exact Hpost.
  - rewrite Hto. reflexivity.
Defined.

(** ** Route documents *)

(** Closes the case of [mapRouteResponseToModel] in which a required key does
    not hold a string: the function panics and one of the four tests is false. *)
Ltac panics_here :=
  split; [split; [done | intros (?&?&?&?); done] | intros ? ?; done].

(** C10: [mapRouteResponseToModel] returns exactly when the response map
    holds strings under [id], [name], [namespaceId] and [from], and panics
    otherwise; when it returns, a boolean key that is missing or not a
    boolean gives a null attribute, a [to] or [policyIds] that is missing or
    not a list leaves the list null, and a missing or non-string optional
    string leaves the attribute null. *)
Theorem mapRouteResponseToModel_total_iff (E : Env) (apiResponse : gomap) :
  (returns (mapRouteResponseToModel E apiResponse) = true
   <-> is_string (index apiResponse "id") = true
       /\ is_string (index apiResponse "name") = true
       /\ is_string (index apiResponse "namespaceId") = true
       /\ is_string (index apiResponse "from") = true)
  /\ (forall model,
        mapRouteResponseToModel E apiResponse = Returns model ->
        (is_bool (index apiResponse "allowSpdy") = false -> AllowSpdy model = types.BoolNull)
        /\ (is_bool (index apiResponse "allowWebsockets") = false ->
            AllowWebsockets model = types.BoolNull)
        /\ (is_bool (index apiResponse "enableGoogleCloudServerlessAuthentication") = false ->
            EnableGoogleCloudServerlessAuthentication model = types.BoolNull)
        /\ (is_bool (index apiResponse "passIdentityHeaders") = false ->
            PassIdentityHeaders model = types.BoolNull)
        /\ (is_bool (index apiResponse "preserveHostHeader") = false ->
            PreserveHostHeader model = types.BoolNull)
        /\ (is_bool (index apiResponse "showErrorDetails") = false ->
            ShowErrorDetails model = types.BoolNull)
        /\ (is_bool (index apiResponse "tlsSkipVerify") = false ->
            TLSSkipVerify model = types.BoolNull)
        /\ (is_bool (index apiResponse "tlsUpstreamAllowRenegotiation") = false ->
            TLSUpstreamAllowRenegotiation model = types.BoolNull)
        /\ (is_slice (index apiResponse "to") = false -> To model = types.ListNull)
        /\ (is_slice (index apiResponse "policyIds") = false ->
            PolicyIDs model = types.ListNull)
        /\ (is_string (index apiResponse "prefix") = false -> Prefix model = types.StringNull)
        /\ (is_string (index apiResponse "prefixRewrite") = false ->
            PrefixRewrite model = types.StringNull)
        /\ (is_string (index apiResponse "kubernetesServiceAccountToken") = false ->
            KubernetesServiceAccountToken model = types.StringNull)).
Proof.
  unfold mapRouteResponseToModel.
  destruct (index apiResponse "id"); simpl; try by panics_here.
  destruct (index apiResponse "name"); simpl; try by panics_here.
  destruct (index apiResponse "namespaceId"); simpl; try by panics_here.
  destruct (index apiResponse "from"); simpl; try by panics_here.
  split; [done|]. intros model [= <-]. simpl.
  split_and!; intros H;
    match type of H with
    | _ ?v = false => destruct v; simpl in *; done
    end.
Qed.

(** A document with the four required strings and nothing else maps to a
    model and does not panic; its optional attributes are null. *)
Lemma mapRouteResponseToModel_total_iff_witness :
  returns (mapRouteResponseToModel env_not_found sample_route_document) = true
  /\ forall model,
       mapRouteResponseToModel env_not_found sample_route_document = Returns model ->
       AllowSpdy model = types.BoolNull /\ To model = types.ListNull.
Proof.
  destruct (mapRouteResponseToModel_total_iff env_not_found sample_route_document)
    as [Hiff Hnull].
  split.
  - apply Hiff. repeat split; vm_compute; reflexivity.
  - intros model Hmodel.
    destruct (Hnull model Hmodel) as (Hspdy & _ & _ & _ & _ & _ & _ & _ & Hto & _).
    split; [apply Hspdy | apply Hto]; vm_compute; reflexivity.
Defined.

Example mapRouteResponseToModel_missing_id :
  mapRouteResponseToModel env_not_found (Some ∅)
  = Panics "interface conversion: interface {} is nil, not string"
  /\ mapRouteResponseToModel env_not_found None
     = Panics "interface conversion: interface {} is nil, not string".
Proof. split; vm_compute; reflexivity. Qed.

(** ** Cluster settings: the struct and the schema *)

Lemma ClusterSettingsResource_conversion_fails :
  ClusterSettingsResource_conversion
  = Some ("Value Conversion Error",
          "mismatch between struct and object: "
          +:+ "Struct defines fields not found in object: codec_type.").
Proof. vm_compute. reflexivity. Qed.



(** ** The provider session *)

(** C4: [getOrganizationID] returns an identifier and no error exactly when
    the organizations endpoint answered 200 with a list of exactly one
    organization, and the identifier is that organization's; for a list of any
    other length it returns the empty identifier and an error. *)
Theorem getOrganizationID_single_organization (E : Env) (p : pomeriumZeroProvider)
    (log log' : list Request) (out : outcome (string * error)) :
  getOrganizationID E p log = (out, log') ->
  (forall id,
      out = Returns (id, None)
      <-> exists resp org,
            response_to E log log' = Some resp
            /\ StatusCode resp = StatusOK
            /\ Decode_Organizations E (RespBody resp) = inr [org]
            /\ org_ID org = id)
  /\ (forall resp orgs,
        response_to E log log' = Some resp ->
        StatusCode resp = StatusOK ->
        Decode_Organizations E (RespBody resp) = inr orgs ->
        length orgs ≠ 1 ->
        out = Returns ("", Some "unexpected number of organizations returned")).
Proof.
  intros Hrun. unfold getOrganizationID in Hrun. io_cases;
    rewrite ?response_to_none, ?response_to_one;
    repeat match goal with H : client_Do _ _ _ = _ |- _ => rewrite H end.
  all: split; [intros id; split; [intros ?; simplify_eq|intros (resp & org & ? & ? & ? & ?)]
              | intros resp orgs ? ? ? ?]; status_facts; simplify_eq; try done.
  all: try congruence.
  all: repeat match goal with
              | H : negb (length ?l =? 1)%nat = _ |- _ =>
                  destruct l as [|? [|? ?]]; simpl in H; try discriminate H; clear H
              end;
       simplify_eq; simpl in *; try done; try congruence.
  all: match goal with
       | H : negb (length ?l =? 0)%nat = false |- _ =>
           destruct l; [clear H | discriminate H]
       end.
  - eauto 10.
  - match goal with
    | H : Decode_Organizations _ _ = inr [_], H' : Decode_Organizations _ _ = inr _ |- _ =>
        rewrite H in H'; by simplify_eq
    end.
Qed.

(** On a list of one organization the identifier of that organization is
    returned; the theorem reads the answer back from the result. *)
Lemma getOrganizationID_single_organization_witness :
  getOrganizationID (env_orgs [mkOrganization "org-1"]) sample_provider []
  = (Returns ("org-1", None),
     [mkRequest "GET" "https://console.pomerium.app/api/v0/organizations"
        [("Authorization", "Bearer jwt"); ("Content-Type", "application/json")] None])
  /\ exists resp org,
       Decode_Organizations (env_orgs [mkOrganization "org-1"]) (RespBody resp) = inr [org]
       /\ org_ID org = "org-1".
Proof.
  split; [vm_compute; reflexivity|].
  destruct (getOrganizationID_single_organization
              (env_orgs [mkOrganization "org-1"]) sample_provider [] _ _ eq_refl)
    as [Hiff _].
  destruct (proj1 (Hiff "org-1") eq_refl) as (resp & org & _ & _ & Hdec & Hid).
  exists resp, org. split; [exact Hdec | exact Hid].
Defined.

Example getOrganizationID_no_organization :
  (getOrganizationID (env_orgs []) sample_provider []).1
  = Returns ("", Some "unexpected number of organizations returned").
Proof. vm_compute; reflexivity. Qed.

Example getOrganizationID_two_organizations :
  (getOrganizationID (env_orgs [mkOrganization "a"; mkOrganization "b"]) sample_provider []).1
  = Returns ("", Some "unexpected number of organizations returned").
Proof. vm_compute; reflexivity. Qed.

(** ** Error texts and the policy read *)

Lemma prefix_occurs (c : ascii) (sub s : string) :
  String.prefix sub s = true -> occurs c sub = true -> occurs c s = true.
Proof.
  revert s. induction sub as [|a sub IH]; intros s Hp Hc; [discriminate Hc|].
  destruct s as [|b s]; [discriminate Hp|]. simpl in *.
  destruct (ascii_dec a b) as [->|]; [|discriminate Hp].
  destruct (Ascii.eqb b c); [reflexivity|]. by apply IH.
Qed.

Lemma Contains_occurs (c : ascii) (s sub : string) :
  Contains s sub = true -> occurs c sub = true -> occurs c s = true.
Proof.
  induction s as [|a s IH]; intros Hs Hc.
  - destruct sub; simpl in *; done.
  - change (Contains (String a s) sub)
      with (if String.prefix sub (String a s) then true else Contains s sub) in Hs.
    destruct (String.prefix sub (String a s)) eqn:Hp.
    + by apply (prefix_occurs c sub (String a s)).
    + simpl. destruct (Ascii.eqb a c); [reflexivity|]. by apply IH.
Qed.

Lemma occurs_digits (d : Decimal.uint) : occurs "y" (NilEmpty.string_of_uint d) = false.
Proof. induction d; simpl; done. Qed.

Lemma occurs_itoa (n : Z) : occurs "y" (itoa n) = false.
Proof.
  unfold itoa, NilZero.string_of_int, NilZero.string_of_uint.
  destruct (Z.to_int n) as [d|d]; destruct d; simpl; try done; apply occurs_digits.
Qed.

Lemma itoa_not_found (n : Z) : Contains (itoa n) "policy not found" = false.
Proof.
  destruct (Contains (itoa n) "policy not found") eqn:H; [|reflexivity].
  apply (Contains_occurs "y") in H; [|reflexivity]. by rewrite occurs_itoa in H.
Qed.

(** C8, as the code has it.  An error of [getPolicy] has one of four
    forms: the library's text behind [error creating request: ] when the URL
    is refused, behind [error making request: ] when the transport fails,
    behind [error decoding response: ] when the body of a 200 does not
    decode, or [unexpected status code: ] and the status when the status is
    not 200.  On such an error [PolicyResource.Read] removes the policy from
    the state if the text contains the words policy not found, and otherwise
    keeps the state and reports the error.  A response with a status other
    than 200 (a 404 included) gives a text without these words, so Read
    reports it; the words can only come from the library text that
    [getPolicy] wraps. *)
Theorem PolicyResource_Read_failure (E : Env) (r : PolicyResource)
    (state : PolicyResourceModel) (log log' : list Request)
    (p : option Policy) (e : string) :
  getPolicy E r (types.ValueString (pm_ID state)) log = (Returns (p, Some e), log') ->
  ((exists inner,
       url_Parse E (policy_url (policy_organizationID r) (types.ValueString (pm_ID state)))
       = Some inner
       /\ log' = log
       /\ e = "error creating request: " +:+ inner)
   \/ (exists req inner,
         log' = (log ++ [req])%list
         /\ client_Do E log req = inl inner
         /\ e = "error making request: " +:+ inner)
   \/ (exists resp,
         response_to E log log' = Some resp
         /\ StatusCode resp ≠ StatusOK
         /\ e = "unexpected status code: " +:+ itoa (StatusCode resp))
   \/ (exists resp inner,
         response_to E log log' = Some resp
         /\ StatusCode resp = StatusOK
         /\ Decode_Policy E (RespBody resp) = inl inner
         /\ e = "error decoding response: " +:+ inner))
  /\ p = None
  /\ PolicyResource_Read E r state log
     = (Returns (if Contains e "policy not found" then mkStateResponse None []
                 else mkStateResponse (Some state) [("Error reading policy", e)]), log')
  /\ (forall resp,
        response_to E log log' = Some resp -> StatusCode resp ≠ StatusOK ->
        e = "unexpected status code: " +:+ itoa (StatusCode resp)
        /\ Contains e "policy not found" = false)
  /\ (Contains e "policy not found" = true
      <-> exists inner,
            (e = "error creating request: " +:+ inner
             \/ e = "error making request: " +:+ inner
             \/ e = "error decoding response: " +:+ inner)
            /\ Contains inner "policy not found" = true).
Proof.
  intros Hrun.
  assert (Hread : PolicyResource_Read E r state log
                  = (Returns (if Contains e "policy not found" then mkStateResponse None []
                              else mkStateResponse (Some state) [("Error reading policy", e)]),
                     log')).
  { unfold PolicyResource_Read, mbind, IO_bind. rewrite Hrun.
    destruct (Contains e "policy not found"); reflexivity. }
  split_and!; [ | | exact Hread | | ]; clear Hread;
    unfold getPolicy in Hrun; io_cases;
    rewrite ?response_to_none, ?response_to_one;
    repeat match goal with H : client_Do _ _ _ = _ |- _ => rewrite H end.
  (* the four forms *)
  1-4: status_facts;
    first [ left; eexists; split_and!; by eauto
          | right; left; eexists _, _; split_and!; by eauto
          | right; right; left; eexists; split_and!; by eauto
          | right; right; right; eexists _, _; split_and!; by eauto ].
  (* no policy with an error *)
  1-4: reflexivity.
  (* a status other than 200 *)
  1-4: intros resp ? ?; status_facts; simplify_eq; try done;
    (split; [reflexivity | exact (itoa_not_found _)]).
  (* where the words can come from *)
  all: split;
    [ intros Hc;
      try (exfalso;
           match type of Hc with
           | context [itoa ?n] =>
               change (Contains (itoa n) "policy not found" = true) in Hc
           end;
           rewrite itoa_not_found in Hc; discriminate Hc);
      (eexists; split; [eauto | exact Hc])
    | intros (inner & [Hx|[Hx|Hx]] & Hc); simpl in Hx; simplify_eq; exact Hc ].
Qed.

(** On [env_not_found] the policy read gets a 404: the state is kept and the
    error reported. *)
Lemma PolicyResource_Read_failure_witness :
  PolicyResource_Read env_not_found sample_policy_resource (sample_policy_state "p1") []
  = (Returns (mkStateResponse (Some (sample_policy_state "p1"))
                [("Error reading policy", "unexpected status code: 404")]),
     [mkRequest "GET" "https://console.pomerium.app/api/v0/organizations/org-1/policies/p1"
        [("Authorization", "Bearer jwt"); ("Content-Type", "application/json")] None]).
Proof.
  exact (proj1 (proj2 (proj2 (PolicyResource_Read_failure env_not_found
                  sample_policy_resource
                  (sample_policy_state "p1") [] _ None "unexpected status code: 404"
                  eq_refl)))).
Defined.

(** C8 as stated fails: on [env_broken_transport] the read fails, the text of
    the transport error carries the words policy not found, and Read removes
    the policy from the state without reporting an error. *)
Lemma PolicyResource_Read_removes_state :
  (getPolicy env_broken_transport sample_policy_resource "p1" []).1
  = Returns (None,
             Some ("error making request: Get " +:+ dquote
                   +:+ "https://console.pomerium.app/api/v0/organizations/org-1/policies/p1"
                   +:+ dquote +:+ ": policy not found"))
  /\ (PolicyResource_Read env_broken_transport sample_policy_resource
        (sample_policy_state "p1") []).1
     = Returns (mkStateResponse None []).
Proof. split; vm_compute; reflexivity. Qed.

(** ** Identifiers *)








(** * Further properties *)

(** ** Cluster settings: requests and methods *)

(** X2: the request of an Update does not tell a null [proxy_log_level] from
    an empty one: the normalisation that Update applies to the plan turns
    every value whose string is empty into null and leaves the request as it
    would be without it. *)
Theorem updateClusterSettingsRequest_proxy_log_level (plan : ClusterSettingsResourceModel) :
  updateClusterSettingsRequest
    (set_ProxyLogLevel plan (normalizeProxyLogLevel (m_ProxyLogLevel plan)))
  = updateClusterSettingsRequest plan
  /\ ucs_ProxyLogLevel (updateClusterSettingsRequest plan)
     = types.ValueString (m_ProxyLogLevel plan)
  /\ (types.IsNull (normalizeProxyLogLevel (m_ProxyLogLevel plan)) = true
      <-> types.ValueString (m_ProxyLogLevel plan) = "").
Proof.
  unfold updateClusterSettingsRequest, normalizeProxyLogLevel. simpl.
  destruct (m_ProxyLogLevel plan) as [| |s]; simpl; [done|done|].
  destruct (String.eqb_spec s ""); simpl.
  - subst. done.
  - rewrite (proj2 (String.eqb_neq s "")) by done. done.
Qed.

(** X23: because [ClusterSettingsResourceModel] has a tag that [Schema] does
    not declare, [ValidateConfig], Create, Update and Delete return at their
    first [Get]: whatever the configuration, the plan and the state, they
    report one Value Conversion Error, send no request and leave the state
    as it was (none for a Create).  [ImportState] does ask for the settings,
    but it ends in one diagnostic in every case, that of the failed request
    or the Value Conversion Error of [State.Set], and the state holds the
    imported identifier and nothing else. *)
Theorem ClusterSettingsResource_methods_stop_at_Get (E : Env)
    (r : ClusterSettingsResource) :
  exists detail,
    let d : Diagnostic := ("Value Conversion Error", detail) in
    (forall data, ValidateConfig data = [d])
    /\ (forall plan config log,
          ClusterSettingsResource_Create E r plan config log
          = (Returns (mkStateResponse None [d]), log))
    /\ (forall plan config state log,
          ClusterSettingsResource_Update E r plan config state log
          = (Returns (mkStateResponse (Some state) [d]), log))
    /\ (forall state log, ClusterSettingsResource_Delete E r state log = (Returns [d], log))
    /\ (forall id log,
          exists d',
            ClusterSettingsResource_ImportState E r id log
            = (Returns (mkStateResponse
                          (Some (set_ID ClusterSettingsResourceModel_zero
                                   (types.StringValue id))) [d']),
               (getClusterSettings E r id log).2)
            /\ (forall settings,
                  (getClusterSettings E r id log).1 = Returns (Some settings, None) ->
                  d' = d)).
Proof.
  eexists. cbv zeta. split_and!; intros;
    unfold ValidateConfig, ClusterSettingsResource_Create, ClusterSettingsResource_Update,
      ClusterSettingsResource_Delete, ClusterSettingsResource_ImportState;
    rewrite ?ClusterSettingsResource_conversion_fails; try reflexivity.
  unfold getClusterSettings. io_cases; eexists; (split; [reflexivity|]);
    intros ? ?; by simplify_eq.
Qed.

(** On [env_settings] the API answers the import with settings; the import
    reports the Value Conversion Error all the same and stores the
    identifier alone. *)
Lemma ClusterSettingsResource_methods_stop_at_Get_witness :
  exists detail,
    ClusterSettingsResource_ImportState env_settings sample_settings_resource "cluster-1" []
    = (Returns (mkStateResponse (Some (sample_settings_state "cluster-1"))
                  [("Value Conversion Error", detail)]),
       [mkRequest "GET"
          "https://console.pomerium.app/api/v0/organizations/org-1/clusters/cluster-1/settings"
          [("Authorization", "Bearer jwt"); ("Content-Type", "application/json")] None])
    /\ ClusterSettingsResource_Delete env_settings sample_settings_resource
         (sample_settings_state "cluster-1") []
       = (Returns [("Value Conversion Error", detail)], []).
Proof.
  destruct (ClusterSettingsResource_methods_stop_at_Get env_settings
              sample_settings_resource) as (detail & _ & _ & _ & Hdelete & Himport).
  exists detail. split; [|apply Hdelete].
  destruct (Himport "cluster-1" []) as (d' & Hrun & Hd).
  rewrite Hrun, (Hd _ eq_refl). reflexivity.
Defined.

(** ** Requests of the resource methods *)

(** X6: every Create, Read, Update and Delete of the route and policy
    resources, the policy import, each data source Read, the policy listing
    and the token exchange sends at most one request per call. *)
Theorem methods_send_at_most_one_request (E : Env) (D : DataEnv) :
  (forall r plan, at_most_one_request (RouteResource_Create E r plan))
  /\ (forall r state, at_most_one_request (RouteResource_Read E r state))
  /\ (forall r plan state, at_most_one_request (RouteResource_Update E r plan state))
  /\ (forall r state, at_most_one_request (RouteResource_Delete E r state))
  /\ (forall r plan, at_most_one_request (PolicyResource_Create E r plan))
  /\ (forall r state, at_most_one_request (PolicyResource_Read E r state))
  /\ (forall r plan state, at_most_one_request (PolicyResource_Update E r plan state))
  /\ (forall r state, at_most_one_request (PolicyResource_Delete E r state))
  /\ (forall r id, at_most_one_request (PolicyResource_ImportState E r id))
  /\ (forall d data, at_most_one_request (ClusterDataSource_Read D d data))
  /\ (forall d data, at_most_one_request (PolicyDataSource_Read D d data))
  /\ (forall r, at_most_one_request (GetSchemaResourceData D r))
  /\ (forall p apiToken, at_most_one_request (getToken D p apiToken)).
Proof.
  split_and!; intros; intros log.
  - unfold RouteResource_Create, createRoute. io_cases; eauto.
  - unfold RouteResource_Read, readRoute. io_cases; eauto.
  - unfold RouteResource_Update, updateRoute. io_cases; eauto.
  - unfold RouteResource_Delete, deleteRoute. io_cases; eauto.
  - unfold PolicyResource_Create, createPolicy. io_cases; eauto.
  - unfold PolicyResource_Read, getPolicy. io_cases; eauto.
  - unfold PolicyResource_Update, updatePolicy. io_cases; eauto.
  - unfold PolicyResource_Delete, deletePolicy. io_cases; eauto.
  - unfold PolicyResource_ImportState, getPolicy. io_cases; eauto.
  - unfold ClusterDataSource_Read, GetClusters. io_cases; eauto.
  - unfold PolicyDataSource_Read, getPolicies. io_cases; eauto.
  - unfold GetSchemaResourceData, listPolicies. io_cases; eauto.
  - unfold getToken. io_cases; eauto.
Qed.

(** X8: the request of each CRUD helper has the verb of its operation, the
    URL of the resource under the organization, and the bearer token of the
    provider; helpers that send a body add the JSON content type (and so do
    the policy and settings reads). *)
Theorem helpers_request_shape (E : Env) :
  (forall r plan,
      sends_only (request_is "POST" (routes_url (route_organizationID r))
                    (json_headers (route_token r))) (createRoute E r plan))
  /\ (forall r id,
        sends_only (request_is "GET" (route_url (route_organizationID r) id)
                      (bearer_header (route_token r))) (readRoute E r id))
  /\ (forall r plan,
        sends_only (request_is "PUT"
                      (route_url (route_organizationID r) (types.ValueString (ID plan)))
                      (json_headers (route_token r))) (updateRoute E r plan))
  /\ (forall r id,
        sends_only (request_is "DELETE" (route_url (route_organizationID r) id)
                      (bearer_header (route_token r))) (deleteRoute E r id))
  /\ (forall r req,
        sends_only (request_is "POST" (policies_url (policy_organizationID r))
                      (json_headers (policy_token r))) (createPolicy E r req))
  /\ (forall r id,
        sends_only (request_is "GET" (policy_url (policy_organizationID r) id)
                      (json_headers (policy_token r))) (getPolicy E r id))
  /\ (forall r id req,
        sends_only (request_is "PUT" (policy_url (policy_organizationID r) id)
                      (json_headers (policy_token r))) (updatePolicy E r id req))
  /\ (forall r id,
        sends_only (request_is "DELETE" (policy_url (policy_organizationID r) id)
                      (bearer_header (policy_token r))) (deletePolicy E r id))
  /\ (forall r req,
        sends_only (request_is "POST"
                      (settings_url (settings_organizationID r) (ccs_ID req))
                      (json_headers (settings_token r))) (createClusterSettings E r req))
  /\ (forall r id,
        sends_only (request_is "GET" (settings_url (settings_organizationID r) id)
                      (json_headers (settings_token r))) (getClusterSettings E r id))
  /\ (forall r id req,
        sends_only (request_is "PUT" (settings_url (settings_organizationID r) id)
                      (json_headers (settings_token r)))
          (updateClusterSettings E r id req))
  /\ (forall r id,
        sends_only (request_is "DELETE" (settings_url (settings_organizationID r) id)
                      (bearer_header (settings_token r))) (deleteClusterSettings E r id)).
Proof.
  split_and!; intros; intros log; apply sends_only_cases;
    [ unfold createRoute | unfold readRoute | unfold updateRoute | unfold deleteRoute
    | unfold createPolicy | unfold getPolicy | unfold updatePolicy | unfold deletePolicy
    | unfold createClusterSettings | unfold getClusterSettings
    | unfold updateClusterSettings | unfold deleteClusterSettings ];
    io_cases; eauto; right; eexists; (split; [reflexivity|]); done.
Qed.

(** X9: no CRUD helper sends a request whose URL does not parse: it returns
    an error and leaves the log of requests as it was. *)
Theorem helpers_refuse_bad_url (E : Env) :
  (forall r plan, refuses E (routes_url (route_organizationID r)) (createRoute E r plan))
  /\ (forall r id, refuses E (route_url (route_organizationID r) id) (readRoute E r id))
  /\ (forall r plan,
        refuses E (route_url (route_organizationID r) (types.ValueString (ID plan)))
          (updateRoute E r plan))
  /\ (forall r id,
        refuses_delete E (route_url (route_organizationID r) id) (deleteRoute E r id))
  /\ (forall r req,
        refuses E (policies_url (policy_organizationID r)) (createPolicy E r req))
  /\ (forall r id, refuses E (policy_url (policy_organizationID r) id) (getPolicy E r id))
  /\ (forall r id req,
        refuses E (policy_url (policy_organizationID r) id) (updatePolicy E r id req))
  /\ (forall r id,
        refuses_delete E (policy_url (policy_organizationID r) id) (deletePolicy E r id))
  /\ (forall r req,
        refuses E (settings_url (settings_organizationID r) (ccs_ID req))
          (createClusterSettings E r req))
  /\ (forall r id,
        refuses E (settings_url (settings_organizationID r) id) (getClusterSettings E r id))
  /\ (forall r id req,
        refuses E (settings_url (settings_organizationID r) id)
          (updateClusterSettings E r id req))
  /\ (forall r id,
        refuses_delete E (settings_url (settings_organizationID r) id)
          (deleteClusterSettings E r id)).
Proof.
  split_and!; intros; intros log err Hurl;
    [ unfold createRoute | unfold readRoute | unfold updateRoute | unfold deleteRoute
    | unfold createPolicy | unfold getPolicy | unfold updatePolicy | unfold deletePolicy
    | unfold createClusterSettings | unfold getClusterSettings
    | unfold updateClusterSettings | unfold deleteClusterSettings ];
    unfold NewRequestWithContext; rewrite Hurl; repeat case_match; eauto.
Qed.

(** On an environment in which no URL parses the route read sends nothing
    and returns an error. *)
Lemma helpers_refuse_bad_url_witness :
  exists data msg,
    readRoute (with_bad_urls env_not_found) sample_route_resource "r1" []
    = (Returns (data, Some msg), []).
Proof.
  exact (proj1 (proj2 (helpers_refuse_bad_url (with_bad_urls env_not_found)))
           sample_route_resource "r1" [] _ eq_refl).
Defined.

(** ** Routes: what a request holds *)

(** X10: a route request holds only keys of the sixteen the code assigns, the
    nine keys of the initial literal always, and never the key [id]: the
    identifier of a route travels in the URL only. *)
Theorem createRouteRequest_key_set (E : Env) (model : RouteResourceModel) :
  let req := createRouteRequest E model in
  (forall k, is_Some (req !! k) -> k ∈ route_request_keys)
  /\ req !! "id" = None
  /\ Forall (fun k => is_Some (req !! k)) (take 9 route_request_keys).
Proof.
  cbv zeta. split_and!.
  - intros k [v Hv]. destruct (decide (k ∈ route_request_keys)) as [|Hk]; [done|].
    rewrite lookup_other_key in Hv by done. discriminate Hv.
  - apply lookup_other_key. unfold route_request_keys. intros H.
    repeat (apply elem_of_cons in H as [?|H]; [done|]). by apply elem_of_nil in H.
  - simpl. repeat constructor;
      rewrite ?lookup_name, ?lookup_namespaceId, ?lookup_from, ?lookup_allowSpdy,
        ?lookup_enableGoogle, ?lookup_showErrorDetails, ?lookup_tlsSkipVerify,
        ?lookup_tlsUpstream, ?lookup_kubernetesServiceAccountToken; eauto.
Qed.

(** The request of the zero model has no [id] and has a [name]. *)
Lemma createRouteRequest_key_set_witness :
  createRouteRequest env_route RouteResourceModel_zero !! "id" = None
  /\ "name" ∈ route_request_keys.
Proof.
  destruct (createRouteRequest_key_set env_route RouteResourceModel_zero)
    as (Hkeys & Hid & Hbase).
  split; [exact Hid|]. apply Hkeys. apply Forall_cons in Hbase as [Hname _]. exact Hname.
Defined.

(** X11: a route read from the API and sent back keeps what the API said: the
    request built from the model of a response carries the response's name,
    namespaceId and from; an optional string or boolean of the response is
    sent back as it came and is omitted when the response lacks it; the five
    booleans of the initial literal and the service-account token fall back
    to false and to the empty string. *)
Theorem route_response_round_trip (E : Env) (response : gomap)
    (model : RouteResourceModel) :
  mapRouteResponseToModel E response = Returns model ->
  let req := createRouteRequest E model in
  let kept (k : string) (b : bool) :=
    req !! k = (if b then Some (index response k) else None) in
  let defaulted (k : string) (b : bool) (v : any) :=
    req !! k = Some (if b then index response k else v) in
  req !! "name" = Some (index response "name")
  /\ req !! "namespaceId" = Some (index response "namespaceId")
  /\ req !! "from" = Some (index response "from")
  /\ kept "prefix" (is_string (index response "prefix"))
  /\ kept "prefixRewrite" (is_string (index response "prefixRewrite"))
  /\ kept "allowWebsockets" (is_bool (index response "allowWebsockets"))
  /\ kept "passIdentityHeaders" (is_bool (index response "passIdentityHeaders"))
  /\ kept "preserveHostHeader" (is_bool (index response "preserveHostHeader"))
  /\ defaulted "allowSpdy" (is_bool (index response "allowSpdy")) (AnyBool false)
  /\ defaulted "enableGoogleCloudServerlessAuthentication"
       (is_bool (index response "enableGoogleCloudServerlessAuthentication")) (AnyBool false)
  /\ defaulted "showErrorDetails" (is_bool (index response "showErrorDetails"))
       (AnyBool false)
  /\ defaulted "tlsSkipVerify" (is_bool (index response "tlsSkipVerify")) (AnyBool false)
  /\ defaulted "tlsUpstreamAllowRenegotiation"
       (is_bool (index response "tlsUpstreamAllowRenegotiation")) (AnyBool false)
  /\ defaulted "kubernetesServiceAccountToken"
       (is_string (index response "kubernetesServiceAccountToken")) (AnyString "").
Proof.
  intros Hmap. cbv zeta.
  rewrite lookup_name, lookup_namespaceId, lookup_from, lookup_prefix, lookup_prefixRewrite,
    lookup_allowWebsockets, lookup_passIdentityHeaders, lookup_preserveHostHeader,
    lookup_allowSpdy, lookup_enableGoogle, lookup_showErrorDetails, lookup_tlsSkipVerify,
    lookup_tlsUpstream, lookup_kubernetesServiceAccountToken.
  unfold mapRouteResponseToModel in Hmap.
  destruct (index response "id"); simpl in Hmap; try discriminate Hmap.
  destruct (index response "name"); simpl in Hmap; try discriminate Hmap.
  destruct (index response "namespaceId"); simpl in Hmap; try discriminate Hmap.
  destruct (index response "from"); simpl in Hmap; try discriminate Hmap.
  injection Hmap as <-. simpl.
  split_and!; try reflexivity;
    match goal with
    | |- context [index response ?k] => destruct (index response k); reflexivity
    end.
Qed.

(** The sample document maps to a model whose request carries its name and
    no prefix. *)
Lemma route_response_round_trip_witness :
  exists model,
    mapRouteResponseToModel env_route sample_route_document = Returns model
    /\ createRouteRequest env_route model !! "name" = Some (AnyString "verify")
    /\ createRouteRequest env_route model !! "prefix" = None.
Proof.
  eexists. split; [vm_compute; reflexivity|].
  match goal with
  | |- createRouteRequest _ ?m !! _ = _ /\ _ =>
      destruct (route_response_round_trip env_route sample_route_document m
                  ltac:(vm_compute; reflexivity)) as (Hname & _ & _ & Hprefix & _)
  end.
  split; [exact Hname | exact Hprefix].
Defined.

(** ** Routes: what State.Set accepts *)

(** X24: a route answer without a list under [to] or [policyIds] cannot be
    stored.  When the read succeeds and the document maps to a model, Read
    keeps the prior state and reports a Value Conversion Error if either key
    holds no list, and stores the mapped model when both lists of the model
    are not null.  Create and Update do the same with the model that their
    helper returns: with a null list a Create stores nothing and an Update
    keeps the prior state, each with one Value Conversion Error; otherwise
    the model is stored. *)
Theorem RouteResource_Set_needs_lists (E : Env) (r : RouteResource) :
  (forall state route model log log',
      readRoute E r (types.ValueString (ID state)) log = (Returns (route, None), log') ->
      mapRouteResponseToModel E route = Returns model ->
      (is_slice (index route "to") = false \/ is_slice (index route "policyIds") = false ->
       exists detail,
         RouteResource_Read E r state log
         = (Returns (mkStateResponse (Some state) [("Value Conversion Error", detail)]),
            log'))
      /\ (types.ListIsNull (To model) = false ->
          types.ListIsNull (PolicyIDs model) = false ->
          RouteResource_Read E r state log
          = (Returns (mkStateResponse (Some model) []), log')))
  /\ (forall plan route log log',
        createRoute E r plan log = (Returns (route, None), log') ->
        if types.ListIsNull (To route) || types.ListIsNull (PolicyIDs route)
        then exists detail,
               RouteResource_Create E r plan log
               = (Returns (mkStateResponse None [("Value Conversion Error", detail)]), log')
        else RouteResource_Create E r plan log
             = (Returns (mkStateResponse (Some route) []), log'))
  /\ (forall plan state route log log',
        updateRoute E r plan log = (Returns (route, None), log') ->
        if types.ListIsNull (To route) || types.ListIsNull (PolicyIDs route)
        then exists detail,
               RouteResource_Update E r plan state log
               = (Returns (mkStateResponse (Some state) [("Value Conversion Error", detail)]),
                  log')
        else RouteResource_Update E r plan state log
             = (Returns (mkStateResponse (Some route) []), log')).
Proof.
  split_and!.
  - intros state route model log log' Hread Hmap.
    unfold RouteResource_Read. rewrite bind_run, Hread. simpl.
    rewrite bind_run. unfold lift. rewrite Hmap. unfold RouteResource_State_Set.
    assert (Hto : To model = list_field E (index route "to") types.ListNull
                  /\ PolicyIDs model = list_field E (index route "policyIds") types.ListNull).
    { unfold mapRouteResponseToModel in Hmap.
      repeat (case_match; simplify_eq); by simplify_eq. }
    destruct Hto as [Hto Hids]. split.
    + intros [Hmissing|Hmissing].
      * rewrite Hto. destruct (index route "to"); try discriminate Hmissing; by eexists.
      * rewrite Hids.
        destruct (index route "policyIds"); try discriminate Hmissing;
          rewrite orb_true_r; by eexists.
    + intros -> ->. reflexivity.
  - intros plan route log log' Hrun.
    unfold RouteResource_Create. rewrite bind_run, Hrun. unfold RouteResource_State_Set.
    destruct (_ || _); [by eexists | reflexivity].
  - intros plan state route log log' Hrun.
    unfold RouteResource_Update. rewrite bind_run, Hrun. unfold RouteResource_State_Set.
    destruct (_ || _); [by eexists | reflexivity].
Qed.

(** On [env_route] the API answers a route read with the four required
    strings and no list: Read keeps the state and reports the error. *)
Lemma RouteResource_Set_needs_lists_witness :
  exists detail,
    RouteResource_Read env_route sample_route_resource sample_route_plan []
    = (Returns (mkStateResponse (Some sample_route_plan)
                  [("Value Conversion Error", detail)]),
       [mkRequest "GET" "https://console.pomerium.app/api/v0/organizations/org-1/routes/r1"
          [("Authorization", "Bearer jwt")] None]).
Proof.
  destruct (proj1 (RouteResource_Set_needs_lists env_route sample_route_resource)
              sample_route_plan sample_route_document _ [] _ eq_refl eq_refl)
    as [Hmissing _].
  destruct (Hmissing (or_introl eq_refl)) as (detail & Hread).
  exists detail. exact Hread.
Defined.

(** ** Failures of the resource methods *)

(** Handles the cases of a method run against the response it received. *)
Ltac by_response :=
  io_cases; rewrite ?response_to_none, ?response_to_one;
  repeat match goal with H : client_Do _ _ _ = _ |- _ => rewrite H end;
  intros; status_facts; simplify_eq; try done; eauto.

(** X12: when the API answers with a status other than the expected one,
    a Create, Read or Update of a route and a Create, Read, Update or import
    of a policy leave the state as it was before the call (empty for a
    Create, the identifier alone for an import) and report exactly one
    diagnostic. *)
Theorem methods_keep_state_on_status (E : Env) :
  (forall r plan,
      keeps_state_on_status E StatusCreated None (RouteResource_Create E r plan))
  /\ (forall r state,
        keeps_state_on_status E StatusOK (Some state) (RouteResource_Read E r state))
  /\ (forall r plan state,
        keeps_state_on_status E StatusOK (Some state) (RouteResource_Update E r plan state))
  /\ (forall r plan,
        keeps_state_on_status E StatusCreated None (PolicyResource_Create E r plan))
  /\ (forall r state,
        keeps_state_on_status E StatusOK (Some state) (PolicyResource_Read E r state))
  /\ (forall r plan state,
        keeps_state_on_status E StatusOK (Some state) (PolicyResource_Update E r plan state))
  /\ (forall r id,
        keeps_state_on_status E StatusOK
          (Some (set_policy_ID PolicyResourceModel_zero (types.StringValue id)))
          (PolicyResource_ImportState E r id)).
Proof.
  split_and!; intros; intros log.
  - unfold RouteResource_Create, createRoute. by_response.
  - unfold RouteResource_Read, readRoute. by_response.
  - unfold RouteResource_Update, updateRoute. by_response.
  - unfold PolicyResource_Create, createPolicy. by_response.
  - unfold PolicyResource_Read, getPolicy. by_response.
    exfalso.
    match goal with
    | H : Contains _ "policy not found" = true |- _ =>
        match type of H with
        | context [itoa ?n] =>
            change (Contains (itoa n) "policy not found" = true) in H;
            rewrite itoa_not_found in H; discriminate H
        end
    end.
  - unfold PolicyResource_Update, updatePolicy. by_response.
  - unfold PolicyResource_ImportState, getPolicy. by_response.
Qed.

(** On [env_not_found] an Update of a route gets a 404: the prior state stays
    and one diagnostic is reported. *)
Lemma methods_keep_state_on_status_witness :
  exists d,
    (RouteResource_Update env_not_found sample_route_resource RouteResourceModel_zero
       RouteResourceModel_zero []).1
    = Returns (mkStateResponse (Some RouteResourceModel_zero) [d]).
Proof.
  pose proof (proj1 (proj2 (proj2 (methods_keep_state_on_status env_not_found)))
                sample_route_resource RouteResourceModel_zero RouteResourceModel_zero [])
    as H.
  destruct (RouteResource_Update env_not_found sample_route_resource
              RouteResourceModel_zero RouteResourceModel_zero []) as [out log'] eqn:Hrun.
  assert (Hlog : log' = [mkRequest "PUT"
                           "https://console.pomerium.app/api/v0/organizations/org-1/routes/"
                           [("Authorization", "Bearer jwt");
                            ("Content-Type", "application/json")] (Some "{}")]).
  { apply (f_equal snd) in Hrun. simpl in Hrun. rewrite <- Hrun. vm_compute. reflexivity. }
  subst log'.
  exact (H (mkResponse 404 (mkBody "" None)) eq_refl ltac:(discriminate)).
Defined.

(** X13: a Delete of a route or a policy that received a response reports no
    diagnostic exactly when the status is 204, and one diagnostic
    otherwise. *)
Theorem deletes_report_status (E : Env) :
  (forall r state, delete_reports_status E (RouteResource_Delete E r state))
  /\ (forall r state, delete_reports_status E (PolicyResource_Delete E r state)).
Proof.
  split_and!; intros; intros log.
  - unfold RouteResource_Delete, deleteRoute. by_response;
      eexists; (split; [reflexivity|]); simpl; split; try lia; split; intros; done.
  - unfold PolicyResource_Delete, deletePolicy. by_response;
      eexists; (split; [reflexivity|]); simpl; split; try lia; split; intros; done.
Qed.

(** On [env_not_found] the Delete of a route gets a 404 and reports one
    diagnostic. *)
Lemma deletes_report_status_witness :
  exists ds,
    (RouteResource_Delete env_not_found sample_route_resource RouteResourceModel_zero []).1
    = Returns ds
    /\ ds ≠ [].
Proof.
  pose proof (proj1 (deletes_report_status env_not_found) sample_route_resource
                RouteResourceModel_zero []) as H.
  destruct (RouteResource_Delete env_not_found sample_route_resource
              RouteResourceModel_zero []) as [out log'] eqn:Hrun.
  assert (Hlog : log' = [mkRequest "DELETE"
                           "https://console.pomerium.app/api/v0/organizations/org-1/routes/"
                           [("Authorization", "Bearer jwt")] None]).
  { apply (f_equal snd) in Hrun. simpl in Hrun. rewrite <- Hrun. vm_compute. reflexivity. }
  subst log'.
  destruct (H (mkResponse 404 (mkBody "" None)) eq_refl) as (ds & Hout & Hiff & _).
  exists ds. split; [exact Hout|]. intros Hds. by specialize (proj1 Hiff Hds).
Defined.

(** ** Policies: identifiers and documents *)

(** X14: [PolicyResource.Update] addresses the policy by the identifier of
    the prior state and never reads the identifier of the plan; the state it
    stores on success is made of the API answer alone, identifier included. *)
Theorem PolicyResource_Update_uses_state_id (E : Env) (r : PolicyResource)
    (plan state : PolicyResourceModel) :
  (forall v log,
      PolicyResource_Update E r (set_policy_ID plan v) state log
      = PolicyResource_Update E r plan state log)
  /\ sends_only (request_is "PUT"
                   (policy_url (policy_organizationID r) (types.ValueString (pm_ID state)))
                   (json_headers (policy_token r)))
       (PolicyResource_Update E r plan state)
  /\ (forall log log' policy,
        updatePolicy E r (types.ValueString (pm_ID state)) (updatePolicyRequest E plan) log
        = (Returns (Some policy, None), log') ->
        PolicyResource_Update E r plan state log
        = (Returns (mkStateResponse
                      (Some (updatePolicyResourceModel PolicyResourceModel_zero policy)) []),
           log')).
Proof.
  split_and!.
  - reflexivity.
  - intros log. apply sends_only_cases.
    unfold PolicyResource_Update, updatePolicy. io_cases; eauto.
    all: right; eexists; (split; [reflexivity|]); done.
  - intros log log' policy Hrun. unfold PolicyResource_Update.
    rewrite bind_run, Hrun. reflexivity.
Qed.

(** The API answers an update of [p1] with the policy [p2]: the stored state
    is the answer. *)
Lemma PolicyResource_Update_uses_state_id_witness :
  PolicyResource_Update env_policy_p2 sample_policy_resource
    (set_policy_ID (sample_policy_state "ignored") types.StringUnknown)
    (sample_policy_state "p1") []
  = (Returns (mkStateResponse
                (Some (updatePolicyResourceModel PolicyResourceModel_zero
                         (sample_policy "p2"))) []),
     [mkRequest "PUT" "https://console.pomerium.app/api/v0/organizations/org-1/policies/p1"
        [("Authorization", "Bearer jwt"); ("Content-Type", "application/json")]
        (Some "{}")]).
Proof.
  apply (proj2 (proj2 (PolicyResource_Update_uses_state_id env_policy_p2
                         sample_policy_resource _ (sample_policy_state "p1")))).
  reflexivity.
Defined.

(** X15: a 404 answer to a policy update gives the error that names the
    identifier of the state and says the policy may have been deleted outside
    of Terraform; the state is kept, the resource is not removed. *)
Theorem PolicyResource_Update_not_found (E : Env) (r : PolicyResource)
    (plan state : PolicyResourceModel) (log log' : list Request)
    (out : outcome (StateResponse PolicyResourceModel)) (resp : Response) :
  PolicyResource_Update E r plan state log = (out, log') ->
  response_to E log log' = Some resp ->
  StatusCode resp = StatusNotFound ->
  read_error (RespBody resp) = None ->
  out = Returns (mkStateResponse (Some state)
                   [("Error updating policy",
                     "policy with ID " +:+ types.ValueString (pm_ID state)
                     +:+ " not found. It may have been deleted outside of Terraform")]).
Proof.
  intros Hrun Hresp Hstatus Hread. revert Hresp.
  unfold PolicyResource_Update, updatePolicy in Hrun. io_cases;
    rewrite ?response_to_none, ?response_to_one;
    repeat match goal with H : client_Do _ _ _ = _ |- _ => rewrite H end;
    intros; status_facts; simplify_eq; try done; try congruence.
Qed.

Lemma PolicyResource_Update_not_found_witness :
  (PolicyResource_Update env_not_found sample_policy_resource (sample_policy_state "p1")
     (sample_policy_state "p1") []).1
  = Returns (mkStateResponse (Some (sample_policy_state "p1"))
               [("Error updating policy",
                 "policy with ID p1 not found. It may have been deleted outside of Terraform")]).
Proof.
  exact (PolicyResource_Update_not_found env_not_found sample_policy_resource
           (sample_policy_state "p1") (sample_policy_state "p1") [] _ _
           (mkResponse 404 (mkBody "" None)) eq_refl eq_refl eq_refl eq_refl).
Defined.

(** X16: [PolicyResource.Create] stores the plan as it is and takes only the
    identifier from the API answer; [PolicyResource.ImportState] stores the
    API answer, and its identifier is the one of the answer, not the one
    given to the import. *)
Theorem PolicyResource_Create_and_ImportState (E : Env) (r : PolicyResource) :
  (forall plan log log' policy,
      createPolicy E r (createPolicyRequest E plan) log
      = (Returns (Some policy, None), log') ->
      exists state',
        PolicyResource_Create E r plan log
        = (Returns (mkStateResponse (Some state') []), log')
        /\ pm_ID state' = types.StringValue (Policy_ID policy)
        /\ pm_Name state' = pm_Name plan
        /\ pm_Description state' = pm_Description plan
        /\ pm_Enforced state' = pm_Enforced plan
        /\ pm_Explanation state' = pm_Explanation plan
        /\ pm_NamespaceID state' = pm_NamespaceID plan
        /\ pm_PPL state' = pm_PPL plan
        /\ pm_Remediation state' = pm_Remediation plan)
  /\ (forall id log log' policy,
        getPolicy E r id log = (Returns (Some policy, None), log') ->
        PolicyResource_ImportState E r id log
        = (Returns (mkStateResponse
                      (Some (updatePolicyResourceModel PolicyResourceModel_zero policy)) []),
           log')
        /\ pm_ID (updatePolicyResourceModel PolicyResourceModel_zero policy)
           = types.StringValue (Policy_ID policy)).
Proof.
  split.
  - intros plan log log' policy Hrun. unfold PolicyResource_Create.
    rewrite bind_run, Hrun. eexists. split_and!; reflexivity.
  - intros id log log' policy Hrun. unfold PolicyResource_ImportState.
    rewrite bind_run, Hrun. split; reflexivity.
Qed.

(** Creating the policy state [p1] when the API answers with [p9], and
    importing [p1] when the API answers with [p2]. *)
Lemma PolicyResource_Create_and_ImportState_witness :
  (exists state',
      PolicyResource_Create env_policy_created sample_policy_resource
        (sample_policy_state "p1") []
      = (Returns (mkStateResponse (Some state') []),
         [mkRequest "POST" "https://console.pomerium.app/api/v0/organizations/org-1/policies"
            [("Authorization", "Bearer jwt"); ("Content-Type", "application/json")]
            (Some "{}")])
      /\ pm_ID state' = types.StringValue "p9"
      /\ pm_Description state' = types.StringValue "")
  /\ pm_ID (updatePolicyResourceModel PolicyResourceModel_zero (sample_policy "p2"))
     = types.StringValue "p2".
Proof.
  destruct (PolicyResource_Create_and_ImportState env_policy_created
              sample_policy_resource) as [Hcreate _].
  destruct (PolicyResource_Create_and_ImportState env_policy_p2
              sample_policy_resource) as [_ Himport].
  split.
  - destruct (Hcreate (sample_policy_state "p1") [] _ (sample_policy "p9") eq_refl)
      as (state' & Hrun & Hid & _ & Hdesc & _).
    exists state'. split_and!; [exact Hrun | exact Hid | exact Hdesc].
  - exact (proj2 (Himport "p1" [] _ (sample_policy "p2") eq_refl)).
Defined.

(** X17: a [ppl] that does not parse as JSON does not stop a Create or an
    Update: the error is only logged, the request document is built with a
    nil [ppl] where a parsed one would stand, and the create and the update
    documents of one model carry the same seven values. *)
Theorem policy_requests_ppl (E : Env) (model : PolicyResourceModel) :
  let c := createPolicyRequest E model in
  let u := updatePolicyRequest E model in
  (cpr_Name c, cpr_Description c, cpr_Enforced c, cpr_Explanation c, cpr_NamespaceID c,
   cpr_PPL c, cpr_Remediation c)
  = (upr_Name u, upr_Description u, upr_Enforced u, upr_Explanation u, upr_NamespaceID u,
     upr_PPL u, upr_Remediation u)
  /\ (forall err, Unmarshal_any E (types.ValueString (pm_PPL model)) = inl err ->
        cpr_PPL c = AnyNil)
  /\ (forall v, Unmarshal_any E (types.ValueString (pm_PPL model)) = inr v -> cpr_PPL c = v)
  /\ (forall r log body err,
        Unmarshal_any E (types.ValueString (pm_PPL model)) = inl err ->
        Marshal_CreatePolicyRequest E c = inr body ->
        url_Parse E (policies_url (policy_organizationID r)) = None ->
        map Body (sent log (PolicyResource_Create E r model log).2) = [Some body]).
Proof.
  cbv zeta. split_and!.
  - reflexivity.
  - intros err H. simpl. unfold unmarshal_ppl. by rewrite H.
  - intros v H. simpl. unfold unmarshal_ppl. by rewrite H.
  - intros r log body err _ Hbody Hurl.
    unfold PolicyResource_Create, createPolicy, NewRequestWithContext.
    rewrite Hbody, Hurl. io_cases; by rewrite sent_one.
Qed.

(** With a [ppl] that is not JSON the Create still posts its document. *)
Lemma policy_requests_ppl_witness :
  map Body (PolicyResource_Create (with_bad_ppl env_policy_created) sample_policy_resource
              (sample_policy_state "p1") []).2
  = [Some "{}"]
  /\ cpr_PPL (createPolicyRequest (with_bad_ppl env_policy_created)
                (sample_policy_state "p1")) = AnyNil.
Proof.
  destruct (policy_requests_ppl (with_bad_ppl env_policy_created)
              (sample_policy_state "p1")) as (_ & Hnil & _ & Hsent).
  split.
  - exact (Hsent sample_policy_resource [] "{}" not_json eq_refl eq_refl eq_refl).
  - exact (Hnil not_json eq_refl).
Defined.

(** ** The data sources *)

Lemma matchingCluster_none (clusters : list Cluster) (name : string) :
  no_cluster_named name clusters -> matchingCluster clusters name = None.
Proof.
  induction 1 as [|c rest Hc _ IH]; [reflexivity|]. simpl.
  by rewrite (proj2 (String.eqb_neq _ _) Hc).
Qed.

Lemma matchingCluster_first (pre post : list Cluster) (c : Cluster) (name : string) :
  no_cluster_named name pre -> Cluster_Name c = name ->
  matchingCluster (pre ++ c :: post) name = Some c.
Proof.
  intros Hpre Hc. induction Hpre as [|c' rest Hc' _ IH]; simpl.
  - by rewrite (proj2 (String.eqb_eq _ _) Hc).
  - by rewrite (proj2 (String.eqb_neq _ _) Hc').
Qed.

(** X18: [ClusterDataSource.Read] answers with the first cluster of the API
    list whose name is the configured one, whatever follows it in the list,
    and keeps the configured name; when no cluster has the name it stores
    nothing and reports that no cluster was found. *)
Theorem ClusterDataSource_Read_first_match (D : DataEnv) (d : ClusterDataSource)
    (data : ClusterDataSourceModel) (log log' : list Request) (clusters : list Cluster) :
  GetClusters D d log = (Returns (clusters, None), log') ->
  let name := types.ValueString (cd_Name data) in
  (no_cluster_named name clusters ->
   ClusterDataSource_Read D d data log
   = (Returns (mkStateResponse None
                 [("Cluster not found", "No cluster found with name: " +:+ name)]), log'))
  /\ (forall pre c post,
        clusters = (pre ++ c :: post)%list ->
        no_cluster_named name pre -> Cluster_Name c = name ->
        ClusterDataSource_Read D d data log
        = (Returns (mkStateResponse (Some
             {| cd_ID := types.StringValue (Cluster_ID c);
                cd_Name := cd_Name data;
                cd_NamespaceID := types.StringValue (Cluster_NamespaceID c);
                cd_Domain := types.StringValue (Cluster_Domain c);
                cd_FQDN := types.StringValue (Cluster_FQDN c);
                cd_AutoDetectIPAddress := types.StringValue (Cluster_AutoDetectIPAddress c);
                cd_CreatedAt := types.StringValue (Cluster_CreatedAt c);
                cd_UpdatedAt := types.StringValue (Cluster_UpdatedAt c) |}) []), log')).
Proof.
  intros Hrun name. split.
  - intros Hnone. unfold ClusterDataSource_Read. rewrite bind_run, Hrun. simpl.
    fold name. by rewrite matchingCluster_none.
  - intros pre c post -> Hpre Hc. unfold ClusterDataSource_Read.
    rewrite bind_run, Hrun. simpl. fold name. by rewrite matchingCluster_first.
Qed.

(** Two clusters are named [beta]: the first one, [c2], is the answer. *)
Lemma ClusterDataSource_Read_first_match_witness :
  exists state',
    (ClusterDataSource_Read env_data (mkClusterDataSource "jwt" "org-1")
       (sample_cluster_query "beta") []).1
    = Returns (mkStateResponse (Some state') [])
    /\ cd_ID state' = types.StringValue "c2".
Proof.
  eexists. split.
  - refine (f_equal fst
              (proj2 (ClusterDataSource_Read_first_match env_data
                        (mkClusterDataSource "jwt" "org-1") (sample_cluster_query "beta")
                        [] _ sample_clusters eq_refl)
                 [sample_cluster "c1" "alpha"] (sample_cluster "c2" "beta")
                 [sample_cluster "c3" "beta"] eq_refl _ eq_refl)).
    repeat constructor. discriminate.
  - reflexivity.
Defined.

Lemma foundPolicy_none (policies : list Policy) (name : string) :
  no_policy_named name policies -> foundPolicy policies name = None.
Proof.
  induction 1 as [|p rest Hp _ IH]; [reflexivity|]. simpl.
  by rewrite (proj2 (String.eqb_neq _ _) Hp).
Qed.

Lemma foundPolicy_first (pre post : list Policy) (p : Policy) (name : string) :
  no_policy_named name pre -> Policy_Name p = name ->
  foundPolicy (pre ++ p :: post) name = Some p.
Proof.
  intros Hpre Hp. induction Hpre as [|p' rest Hp' _ IH]; simpl.
  - by rewrite (proj2 (String.eqb_eq _ _) Hp).
  - by rewrite (proj2 (String.eqb_neq _ _) Hp').
Qed.

(** X19: [PolicyDataSource.Read] asks for the policies of the configured
    namespace and its descendants and answers with the identifier of the
    first policy of the list whose name is the configured one; name and
    namespace stay as configured; when no policy has the name it stores
    nothing and reports that the policy was not found. *)
Theorem PolicyDataSource_Read_first_match (D : DataEnv) (d : PolicyDataSource)
    (data : PolicyDataSourceModel) (log log' : list Request) (policies : list Policy) :
  getPolicies D d (types.ValueString (pd_NamespaceID data)) log
  = (Returns (policies, None), log') ->
  let name := types.ValueString (pd_Name data) in
  (no_policy_named name policies ->
   PolicyDataSource_Read D d data log
   = (Returns (mkStateResponse None
                 [("Policy Not Found", "No policy found with name: " +:+ name)]), log'))
  /\ (forall pre p post,
        policies = (pre ++ p :: post)%list ->
        no_policy_named name pre -> Policy_Name p = name ->
        PolicyDataSource_Read D d data log
        = (Returns (mkStateResponse (Some
             {| pd_ID := types.StringValue (Policy_ID p);
                pd_Name := pd_Name data;
                pd_NamespaceID := pd_NamespaceID data |}) []), log'))
  /\ Forall (request_is "GET"
               (apiBaseURL +:+ "/organizations/" +:+ pds_organizationID d
                +:+ "/policies?namespaceId=" +:+ types.ValueString (pd_NamespaceID data)
                +:+ "&includeDescendants=true")
               (json_headers (pds_token d))) (sent log log').
Proof.
  intros Hrun name. split_and!.
  - intros Hnone. unfold PolicyDataSource_Read. rewrite bind_run, Hrun. simpl.
    fold name. by rewrite foundPolicy_none.
  - intros pre p post -> Hpre Hp. unfold PolicyDataSource_Read.
    rewrite bind_run, Hrun. simpl. fold name. by rewrite foundPolicy_first.
  - unfold getPolicies in Hrun. io_cases. rewrite sent_one. by repeat constructor.
Qed.

(** Both sample policies are named [allow-all]: the first, [p1], is the
    answer. *)
Lemma PolicyDataSource_Read_first_match_witness :
  (PolicyDataSource_Read env_data (mkPolicyDataSource "jwt" "org-1")
     (sample_policy_query "allow-all") []).1
  = Returns (mkStateResponse (Some
       (mkPolicyDataSourceModel (types.StringValue "p1") (types.StringValue "allow-all")
          (types.StringValue "ns-1"))) []).
Proof.
  refine (f_equal fst
            (proj1 (proj2 (PolicyDataSource_Read_first_match env_data
                             (mkPolicyDataSource "jwt" "org-1")
                             (sample_policy_query "allow-all") [] _ sample_policies eq_refl))
               [] (sample_policy "p1") [sample_policy "p2"] eq_refl _ eq_refl)).
  constructor.
Defined.

Lemma schema_resources_all (ps : list Policy) : forall resources,
  schema_resources (map Some ps) resources
  = Returns (resources ++ map schema_entry ps)%list.
Proof.
  induction ps as [|p ps IH]; intros resources; simpl.
  - by rewrite app_nil_r.
  - rewrite IH, <- app_assoc. reflexivity.
Qed.

Lemma schema_resources_nil_pointer (policies : list (option Policy)) : forall resources,
  None ∈ policies -> exists msg, schema_resources policies resources = Panics msg.
Proof.
  induction policies as [|[p|] rest IH]; intros resources Hin.
  - by apply elem_of_nil in Hin.
  - apply elem_of_cons in Hin as [?|Hin]; [done|]. simpl. by apply IH.
  - simpl. eauto.
Qed.

(** X20: [GetSchemaResourceData] emits one entry per listed policy, in the
    order of the list, each with the id, the name and the enforced flag of
    its policy; a null element in the list makes it panic instead of
    returning an error. *)
Theorem GetSchemaResourceData_entries (D : DataEnv) (r : PolicyResource)
    (log log' : list Request) (policies : list (option Policy)) :
  listPolicies D r log = (Returns (policies, None), log') ->
  (forall ps,
      policies = map Some ps ->
      GetSchemaResourceData D r log
      = (Returns match MarshalIndent_maps D (map schema_entry ps) with
                 | inl e => (None, Some ("error marshaling JSON: " +:+ e))
                 | inr data => (Some data, None)
                 end, log'))
  /\ (None ∈ policies ->
      exists msg, GetSchemaResourceData D r log = (Panics msg, log'))
  /\ (forall p, schema_entry p !! "id" = Some (AnyString (Policy_ID p))
                /\ schema_entry p !! "name" = Some (AnyString (Policy_Name p))
                /\ schema_entry p !! "enforced" = Some (AnyBool (Policy_Enforced p))
                /\ size (schema_entry p) = 3%nat).
Proof.
  intros Hrun. split_and!.
  - intros ps ->. unfold GetSchemaResourceData. rewrite bind_run, Hrun. simpl.
    rewrite bind_run. unfold lift. rewrite schema_resources_all. simpl.
    by destruct (MarshalIndent_maps D _).
  - intros Hin. unfold GetSchemaResourceData. rewrite bind_run, Hrun. simpl.
    rewrite bind_run. unfold lift.
    destruct (schema_resources_nil_pointer policies [] Hin) as [msg ->]. eauto.
  - intros p. unfold schema_entry. split_and!.
    + by rewrite lookup_insert_eq.
    + rewrite lookup_insert_ne by done. by rewrite lookup_insert_eq.
    + rewrite !lookup_insert_ne by done. by rewrite lookup_insert_eq.
    + vm_compute. reflexivity.
Qed.

(** Two policies are listed: two entries are marshalled. *)
Lemma GetSchemaResourceData_entries_witness :
  GetSchemaResourceData env_data sample_policy_resource []
  = (Returns (Some "[]", None),
     [mkRequest "GET" "https://console.pomerium.app/api/v0/organizations/org-1/policies"
        [("Authorization", "Bearer jwt"); ("Content-Type", "application/json")] None]).
Proof.
  exact (proj1 (GetSchemaResourceData_entries env_data sample_policy_resource [] _
                  (map Some sample_policies) eq_refl) sample_policies eq_refl).
Defined.

(** ** The provider session: token and Configure *)

(** X21: [getToken] returns a token and no error exactly when the token
    endpoint answered 200 with a document that decodes, and the token is the
    [idToken] of that document; its request is a POST to the token endpoint
    that carries the API token in the body and no Authorization header. *)
Theorem getToken_exchange (D : DataEnv) (p : pomeriumZeroProvider) (apiToken : string)
    (log log' : list Request) (out : outcome (string * error)) :
  getToken D p apiToken log = (out, log') ->
  (forall tok,
      out = Returns (tok, None)
      <-> exists resp,
            response_to (base D) log log' = Some resp
            /\ StatusCode resp = StatusOK
            /\ Decode_IDToken D (RespBody resp) = inr tok)
  /\ (forall tok e, out = Returns (tok, Some e) -> tok = "")
  /\ Forall (fun req =>
               request_is "POST" tokenEndpoint [("Content-Type", "application/json")] req
               /\ Body req = Some ("{" +:+ dquote +:+ "refreshToken" +:+ dquote +:+ ": "
                                   +:+ dquote +:+ apiToken +:+ dquote +:+ "}"))
       (sent log log').
Proof.
  intros Hrun. unfold getToken in Hrun. io_cases;
    rewrite ?response_to_none, ?response_to_one, ?sent_none, ?sent_one;
    repeat match goal with H : client_Do _ _ _ = _ |- _ => rewrite H end.
  all: split_and!;
    [ intros tok; split; [intros ?; simplify_eq; eauto | intros (resp & ? & ? & ?)];
      status_facts; simplify_eq; try done; try congruence
    | intros tok e ?; by simplify_eq
    | by repeat constructor ].
  eauto.
Qed.

(** On [env_data] the token endpoint answers 200 and the document carries
    [jwt-1]. *)
Lemma getToken_exchange_witness :
  getToken env_data sample_provider "api-token" []
  = (Returns ("jwt-1", None),
     [mkRequest "POST" "https://console.pomerium.app/api/v0/token"
        [("Content-Type", "application/json")]
        (Some ("{" +:+ dquote +:+ "refreshToken" +:+ dquote +:+ ": " +:+ dquote
               +:+ "api-token" +:+ dquote +:+ "}"))])
  /\ exists resp, Decode_IDToken env_data (RespBody resp) = inr "jwt-1".
Proof.
  split; [vm_compute; reflexivity|].
  destruct (proj1 (proj1 (getToken_exchange env_data sample_provider "api-token" [] _ _
                            eq_refl) "jwt-1") eq_refl) as (resp & _ & _ & Hdec).
  exists resp. exact Hdec.
Defined.



